(** * Gold dashboard: the data update script (scripts/update-data.js)

    A shallow embedding of the script that fetches the gold price, the Fed
    policy series, the dollar index and the geopolitical news, normalises
    them and writes one JSON file per source.

    - JavaScript numbers are [number]: the exact rational value of a finite
      double, [NaN] or an infinity.  [Math.round] and [toFixed] are defined
      on the exact value as ECMAScript specifies them.  What rounds to a
      double ([parseFloat], [+], [*], numeric literals) is a parameter of
      the development, and so is the parsing of a date string by
      [new Date].
    - Strings are Rocq strings (bytes); the classification of events is
      about ASCII text.
    - [await], [fetch], [fs.writeFileSync] and [try]/[catch] become a state
      and exception monad over the list of requests, the files written and
      the time waited.  Console output is left out. *)

From Stdlib Require Import ZArith QArith Qround Qabs Ascii.
From stdpp Require Import base option list strings gmap pretty.

Local Open Scope string_scope.

(** ** Strings *)

Definition ascii_toLowerCase (c : ascii) : ascii :=
  let n := nat_of_ascii c in
  if (65 <=? n)%nat && (n <=? 90)%nat then ascii_of_nat (n + 32) else c.

(** [String.prototype.toLowerCase] on ASCII text. *)
Fixpoint toLowerCase (s : string) : string :=
  match s with
  | EmptyString => EmptyString
  | String c s' => String (ascii_toLowerCase c) (toLowerCase s')
  end.

(** [s.substring(0, n)] on ASCII text: the model counts bytes, JavaScript
    counts UTF-16 code units, and the two agree when every character is
    ASCII. *)
Fixpoint substring0 (n : nat) (s : string) : string :=
  match n, s with
  | S n', String c s' => String c (substring0 n' s')
  | _, _ => EmptyString
  end.

(** Text of which every byte is an ASCII character. *)
Fixpoint ascii_only (s : string) : bool :=
  match s with
  | EmptyString => true
  | String c s' => (nat_of_ascii c <? 128)%nat && ascii_only s'
  end.

(** [s.split(sep)[0]]: the text before the first [sep], all of [s] when
    there is none. *)
Fixpoint split_first (sep : ascii) (s : string) : string :=
  match s with
  | EmptyString => EmptyString
  | String c s' => if Ascii.eqb c sep then EmptyString else String c (split_first sep s')
  end.

(** A regular expression that is an alternation of literals, as all of the
    script's are, matches a text when one of the literals occurs in it. *)
Fixpoint includes (pat text : string) : bool :=
  String.prefix pat text ||
  match text with
  | EmptyString => false
  | String _ text' => includes pat text'
  end.

Definition matches (alternatives : list string) (text : string) : bool :=
  existsb (fun pat => includes pat text) alternatives.

(** JavaScript truthiness of a string-or-undefined value. *)
Definition truthy (v : option string) : bool :=
  match v with
  | Some s => negb (String.eqb s "")
  | None => false
  end.

(** ** Numbers *)

Inductive number : Type :=
  | Num (q : Q)
  | NaN
  | Infinity (negative : bool).

(** What the JavaScript runtime computes with rounding to a double or in an
    implementation-defined way. *)
Class JsRuntime : Type := {
  (** [parseFloat(s)] *)
  parseFloat : string -> number;
  (** the double a decimal literal of the source text denotes *)
  literal : Q -> number;
  (** [x + y] and [x * y] on numbers *)
  fadd : number -> number -> number;
  fmul : number -> number -> number;
  (** [Number::toString], which [toFixed] uses from 1e21 on *)
  Number_toString : number -> string;
  (** the calendar fields, in local time, of [new Date(s)]; [None] is the
      Invalid Date *)
  new_Date : string -> option (Z * nat * nat)
}.

(** [Math.round(x)]: the integer nearest to [x], ties towards +∞. *)
Definition Math_round (x : number) : number :=
  match x with
  | Num q => Num (inject_Z (Qfloor (q + (1 # 2))))
  | _ => x
  end.

Fixpoint zeros (n : nat) : string :=
  match n with
  | O => ""
  | S n' => String "0" (zeros n')
  end.

(** [x.toFixed(f)] for [0 ≤ f ≤ 100], step by step as in ECMA-262. *)
Definition toFixed `{JsRuntime} (x : number) (f : nat) : string :=
  match x with
  | NaN => "NaN"
  | Infinity negative => if negative then "-Infinity" else "Infinity"
  | Num q =>
      let s := if Qle_bool 0 q then "" else "-" in
      let x := Qabs q in
      let m :=
        if Qle_bool (10 ^ 21) x then Number_toString (Num x)
        else
          let n := Qfloor (x * inject_Z (10 ^ Z.of_nat f) + (1 # 2)) in
          let m := pretty n in
          if (f =? 0)%nat then m
          else
            let k := String.length m in
            let m := if (k <=? f)%nat then zeros (f + 1 - k) +:+ m else m in
            let k := String.length m in
            String.substring 0 (k - f) m +:+ "." +:+ String.substring (k - f) f m
      in s +:+ m
  end.

(** ** Dates *)

Definition months : list string :=
  ["Jan"; "Feb"; "Mar"; "Apr"; "May"; "Jun"; "Jul"; "Aug"; "Sep"; "Oct"; "Nov"; "Dec"].

(** The fields of an Invalid Date are NaN, and [months[NaN]] is undefined. *)
Definition formatDate `{JsRuntime} (dateString : string) : string :=
  match new_Date dateString with
  | Some (getFullYear, getMonth, getDate) =>
      default "undefined" (months !! getMonth) +:+ " " +:+
      pretty getDate +:+ ", " +:+ pretty getFullYear
  | None => "undefined NaN, NaN"
  end.

(** ** What the providers answer *)

Module TwelveData.
Record point : Type := { datetime : string; close : string }.
Record body : Type := {
  status : option string;
  message : option string;
  values : option (list point)
}.
End TwelveData.

Module AlphaVantage.
(** [close] is the field ['4. close'] of a day. *)
Record day : Type := { close : string }.
(** [time_series] holds [Object.entries] of ['Time Series FX (Daily)'], in
    the order of the properties. *)
Record body : Type := {
  Error_Message : option string;
  time_series : option (list (string * day))
}.
End AlphaVantage.

Module Fred.
Record observation : Type := { date : string; value : string }.
Record body : Type := {
  error_message : option string;
  observations : option (list observation)
}.
End Fred.

Module NewsApi.
(** A [description] that is [None] is JSON [null]. *)
Record article : Type := {
  title : string;
  description : option string;
  publishedAt : string;
  url : string
}.
Record body : Type := {
  status : option string;
  message : option string;
  articles : option (list article)
}.
End NewsApi.

(** A [fetch] promise rejects, or resolves to a response whose [json()]
    rejects when the body is not JSON ([None]). *)
Record response (B : Type) : Type := {
  ok : bool;
  status : nat;
  json_body : option B
}.
Arguments ok {B} _.
Arguments status {B} _.
Arguments json_body {B} _.

Inductive fetched (B : Type) : Type :=
  | Rejected (reason : string)
  | Resolved (r : response B).
Arguments Rejected {B} _.
Arguments Resolved {B} _.

(** [process.env], the clock and the network.  The Twelve Data answers are
    indexed by symbol, the FRED ones by series id. *)
Record World : Type := {
  ALPHA_VANTAGE_KEY : option string;
  FRED_KEY : option string;
  TWELVE_DATA_KEY : option string;
  NEWS_API_KEY : option string;
  now : string;
  twelvedata : string -> fetched TwelveData.body;
  alphavantage : fetched AlphaVantage.body;
  fred : string -> fetched Fred.body;
  newsapi : fetched NewsApi.body
}.

(** ** What the script writes *)

Module Gold.
Record point : Type := { date : string; price : number }.
Record t : Type := {
  lastUpdated : string;
  currentPrice : number;
  source : string;
  history : list point
}.
End Gold.

Module FedPolicy.
(** [None] is [null]. *)
Record point : Type := {
  date : string;
  fedRate : option string;
  realYield : option string
}.
Record t : Type := {
  lastUpdated : string;
  source : string;
  currentFedRate : option string;
  currentRealYield : option string;
  data : list point
}.
End FedPolicy.

Module Dxy.
Record point : Type := { date : string; dxy : string }.
Record t : Type := {
  lastUpdated : string;
  source : string;
  currentDXY : string;
  data : list point
}.
End Dxy.

Inductive Severity : Type := low | medium | high.
Inductive Impact : Type := neutral | positive | negative.

Module Geo.
Record event_t : Type := {
  date : string;
  event : string;
  severity : Severity;
  impact : Impact;
  url : string
}.
Record t : Type := {
  lastUpdated : string;
  source : string;
  events : list event_t
}.
End Geo.

Inductive Saved : Type :=
  | GoldFile (d : Gold.t)
  | FedFile (d : FedPolicy.t)
  | DxyFile (d : Dxy.t)
  | GeoFile (d : Geo.t).

(** ** Effects *)

Inductive exn : Type :=
  | Error (message : string)
  | TypeError
  | SyntaxError
  | FetchError (reason : string).

(** [Loops] stands for a loop that does not end. *)
Inductive outcome (A : Type) : Type :=
  | Return (a : A)
  | Throw (e : exn)
  | Loops.
Arguments Return {A} _.
Arguments Throw {A} _.
Arguments Loops {A}.

#[export] Instance outcome_ret : MRet outcome := fun A a => Return a.
#[export] Instance outcome_bind : MBind outcome := fun A B f o =>
  match o with
  | Return a => f a
  | Throw e => Throw e
  | Loops => Loops
  end.

(** Reading a property of [undefined] throws a TypeError. *)
Definition defined {A : Type} (v : option A) : outcome A :=
  match v with
  | Some a => Return a
  | None => Throw TypeError
  end.

Record State : Type := {
  requests : list string;
  files : gmap string Saved;
  waited : nat
}.

Definition M (A : Type) : Type := State -> outcome A * State.

#[export] Instance M_ret : MRet M := fun A a s => (Return a, s).
#[export] Instance M_bind : MBind M := fun A B f m s =>
  match m s with
  | (Return a, s') => f a s'
  | (Throw e, s') => (Throw e, s')
  | (Loops, s') => (Loops, s')
  end.

Definition lift {A : Type} (o : outcome A) : M A := fun s => (o, s).

Definition throw {A : Type} (e : exn) : M A := lift (Throw e).

(** [try { body } catch (error) { handler }] *)
Definition try_catch {A : Type} (body : M A) (handler : exn -> M A) : M A :=
  fun s =>
    match body s with
    | (Throw e, s') => handler e s'
    | r => r
    end.

(** [await fetch(url)]: the request goes out whatever the answer is. *)
Definition fetch {B : Type} (url : string) (answer : fetched B) : M (response B) :=
  fun s =>
    let s' := {| requests := requests s ++ [url]; files := files s; waited := waited s |} in
    match answer with
    | Rejected reason => (Throw (FetchError reason), s')
    | Resolved r => (Return r, s')
    end.

(** [await response.json()] *)
Definition json {B : Type} (r : response B) : M B :=
  match json_body r with
  | Some b => mret b
  | None => throw SyntaxError
  end.

(** [await delay(ms)] *)
Definition delay (ms : nat) : M unit :=
  fun s => (Return tt, {| requests := requests s; files := files s; waited := waited s + ms |}).

(** [saveData(filename, data)]; the data directory exists once the module
    is loaded, and the write is taken to succeed. *)
Definition saveData (filename : string) (data : Saved) : M unit :=
  fun s => (Return tt, {| requests := requests s; files := <[filename := data]> (files s); waited := waited s |}).

(** A key in a template literal; [undefined] prints as such. *)
Definition key (k : option string) : string := default "undefined" k.

(** ** The script *)

Section Script.
Context `{JsRuntime} (w : World).

(** *** 1. Gold price *)

Definition gold_url : string :=
  "https://api.twelvedata.com/time_series?symbol=XAU/USD&interval=1day&outputsize=365&apikey="
  +:+ key (TWELVE_DATA_KEY w).

Definition gold_fallback_url : string :=
  "https://www.alphavantage.co/query?function=FX_DAILY&from_symbol=XAU&to_symbol=USD&outputsize=full&apikey="
  +:+ key (ALPHA_VANTAGE_KEY w).

Definition gold_point (d : TwelveData.point) : Gold.point :=
  {| Gold.date := formatDate (TwelveData.datetime d);
     Gold.price := Math_round (parseFloat (TwelveData.close d)) |}.

Definition gold_fallback_point (entry : string * AlphaVantage.day) : Gold.point :=
  {| Gold.date := formatDate entry.1;
     Gold.price := Math_round (parseFloat (AlphaVantage.close entry.2)) |}.

(** The body of the outer [try]: Twelve Data. *)
Definition updateGoldPrice_primary : M (option Gold.t) :=
  response ← fetch gold_url (twelvedata w "XAU/USD");
  if negb (ok response) then throw (Error ("API Error: " +:+ pretty (status response)))
  else
    data ← json response;
    if bool_decide (TwelveData.status data = Some "error")
    then throw (Error (default "" (TwelveData.message data)))
    else
      values ← lift (defined (TwelveData.values data));
      newest ← lift (defined (values !! 0%nat));
      let goldData :=
        {| Gold.lastUpdated := now w;
           Gold.currentPrice := parseFloat (TwelveData.close newest);
           Gold.source := "Twelve Data API";
           Gold.history := gold_point <$> reverse (take 180 values) |} in
      saveData "gold-price.json" (GoldFile goldData);;
      mret (Some goldData).

(** The body of the inner [try]: Alpha Vantage. *)
Definition updateGoldPrice_fallback : M (option Gold.t) :=
  fallbackResponse ← fetch gold_fallback_url (alphavantage w);
  fallbackData ← json fallbackResponse;
  if truthy (AlphaVantage.Error_Message fallbackData)
  then throw (Error "Alpha Vantage fallback failed")
  else
    timeSeries ← lift (defined (AlphaVantage.time_series fallbackData));
    let history := gold_fallback_point <$> reverse (take 180 timeSeries) in
    newest ← lift (defined (last history));
    let goldData :=
      {| Gold.lastUpdated := now w;
         Gold.currentPrice := Gold.price newest;
         Gold.source := "Alpha Vantage API (fallback)";
         Gold.history := history |} in
    saveData "gold-price.json" (GoldFile goldData);;
    mret (Some goldData).

Definition updateGoldPrice : M (option Gold.t) :=
  try_catch updateGoldPrice_primary (fun error =>
    try_catch updateGoldPrice_fallback (fun fallbackError => mret None)).

(** *** 2. Fed policy *)

Definition fred_url (series_id : string) : string :=
  "https://api.stlouisfed.org/fred/series/observations?series_id=" +:+ series_id +:+
  "&api_key=" +:+ key (FRED_KEY w) +:+ "&file_type=json&limit=365&sort_order=desc".

(** [v !== '.' ? parseFloat(v).toFixed(2) : null] *)
Definition rate_text (v : string) : option string :=
  if String.eqb v "." then None else Some (toFixed (parseFloat v) 2).

(** One call of the callback of [map].  [realYield] is what the array
    [realYieldData.observations] holds when the call starts: [reverse()]
    reverses that array in place and returns it, so the call leaves it
    reversed for the next one. *)
Definition combine_obs (obs : Fred.observation) (idx : nat)
    (realYield : option (list Fred.observation))
  : outcome (FedPolicy.point * list Fred.observation) :=
  observations ← defined realYield;
  let reversed := reverse observations in
  let realYieldObs := reversed !! idx in
  mret ({| FedPolicy.date := formatDate (Fred.date obs);
           FedPolicy.fedRate := rate_text (Fred.value obs);
           FedPolicy.realYield :=
             match realYieldObs with
             | Some o => rate_text (Fred.value o)
             | None => None
             end |}, reversed).

(** [dff.map((obs, idx) => ...)] from index [idx] on. *)
Fixpoint combine_from (dff : list Fred.observation) (idx : nat)
    (realYield : option (list Fred.observation)) : outcome (list FedPolicy.point) :=
  match dff with
  | [] => mret []
  | obs :: rest =>
      '(d, reversed) ← combine_obs obs idx realYield;
      ds ← combine_from rest (S idx) (Some reversed);
      mret (d :: ds)
  end.

Definition complete (d : FedPolicy.point) : bool :=
  truthy (FedPolicy.fedRate d) && truthy (FedPolicy.realYield d).

(** [dffData.observations.reverse().map(...).filter(...)] *)
Definition combinedData (dffData realYieldData : Fred.body) : outcome (list FedPolicy.point) :=
  observations ← defined (Fred.observations dffData);
  mapped ← combine_from (reverse observations) 0 (Fred.observations realYieldData);
  mret (List.filter complete mapped).

(** [a.slice(-n)] *)
Definition slice_last {A : Type} (n : nat) (a : list A) : list A :=
  drop (length a - n) a.

Definition updateFedData_body : M (option FedPolicy.t) :=
  dffResponse ← fetch (fred_url "DFF") (fred w "DFF");
  dffData ← json dffResponse;
  delay 1000;;
  realYieldResponse ← fetch (fred_url "DFII10") (fred w "DFII10");
  realYieldData ← json realYieldResponse;
  if truthy (Fred.error_message dffData) || truthy (Fred.error_message realYieldData)
  then throw (Error "FRED API Error")
  else
    combined ← lift (combinedData dffData realYieldData);
    current ← lift (defined (last combined));
    let fedData :=
      {| FedPolicy.lastUpdated := now w;
         FedPolicy.source := "Federal Reserve Economic Data (FRED)";
         FedPolicy.currentFedRate := FedPolicy.fedRate current;
         FedPolicy.currentRealYield := FedPolicy.realYield current;
         FedPolicy.data := slice_last 180 combined |} in
    saveData "fed-policy.json" (FedFile fedData);;
    mret (Some fedData).

Definition updateFedData : M (option FedPolicy.t) :=
  try_catch updateFedData_body (fun error => mret None).

(** *** 3. Dollar index *)

Definition series_url (symbol : string) (outputsize : string) : string :=
  "https://api.twelvedata.com/time_series?symbol=" +:+ symbol +:+
  "&interval=1day&outputsize=" +:+ outputsize +:+ "&apikey=" +:+ key (TWELVE_DATA_KEY w).

Definition dxy_point (d : TwelveData.point) : Dxy.point :=
  {| Dxy.date := formatDate (TwelveData.datetime d);
     Dxy.dxy := toFixed (parseFloat (TwelveData.close d)) 1 |}.

Definition updateDollarIndex_primary : M (option Dxy.t) :=
  response ← fetch (series_url "DXY" "365") (twelvedata w "DXY");
  if negb (ok response) then throw (Error ("API Error: " +:+ pretty (status response)))
  else
    data ← json response;
    if bool_decide (TwelveData.status data = Some "error")
    then throw (Error (default "" (TwelveData.message data)))
    else
      values ← lift (defined (TwelveData.values data));
      newest ← lift (defined (values !! 0%nat));
      let dxyData :=
        {| Dxy.lastUpdated := now w;
           Dxy.source := "Twelve Data API";
           Dxy.currentDXY := toFixed (parseFloat (TwelveData.close newest)) 1;
           Dxy.data := dxy_point <$> reverse (take 180 values) |} in
      saveData "dollar-index.json" (DxyFile dxyData);;
      mret (Some dxyData).

Definition pairs : list string := ["EUR/USD"; "USD/JPY"; "GBP/USD"; "USD/CAD"].

Definition weights : gmap string number :=
  {[ "EUR/USD" := literal (-0.576)%Q; "USD/JPY" := literal 0.136%Q;
     "GBP/USD" := literal (-0.119)%Q; "USD/CAD" := literal 0.091%Q ]}.

(** [weights[pair]] as a factor: [undefined * x] is NaN. *)
Definition weight (pair : string) : number := default NaN (weights !! pair).

(** The loop that fetches the pairs, from the pairs [todo] on. *)
Fixpoint fetch_pairs (todo : list string) (pairData : gmap string (list TwelveData.point))
  : M (gmap string (list TwelveData.point)) :=
  match todo with
  | [] => mret pairData
  | symbol :: rest =>
      delay 1000;;
      resp ← fetch (series_url symbol "180") (twelvedata w symbol);
      json ← json resp;
      fetch_pairs rest
        match TwelveData.values json with
        | Some values => <[symbol := values]> pairData
        | None => pairData
        end
  end.

(** A loop bound; [Math.min()] of no argument is Infinity. *)
Inductive bound : Type := Finite (n : nat) | Unbounded.

Definition Math_min (lengths : list nat) : bound :=
  foldr (fun n b => match b with Finite m => Finite (n `min` m) | Unbounded => Finite n end)
        Unbounded lengths.

Definition below (i : nat) (b : bound) : bool :=
  match b with
  | Finite n => (i <? n)%nat
  | Unbounded => true
  end.

Section Proxy.
Variable pairData : gmap string (list TwelveData.point).

(** [pairs.forEach(pair => { weightedSum += weights[pair] * rate })] *)
Definition add_pair (i : nat) (weightedSum : outcome number) (pair : string) : outcome number :=
  sum ← weightedSum;
  values ← defined (pairData !! pair);
  d ← defined (values !! i);
  let rate := parseFloat (TwelveData.close d) in
  mret (fadd sum (fmul (weight pair) rate)).

Definition weightedSum (i : nat) : outcome number :=
  foldl (add_pair i) (mret (literal 100%Q)) pairs.

(** One turn of the [for] loop. *)
Definition proxy_point (i : nat) : outcome Dxy.point :=
  sum ← weightedSum i;
  pair0 ← defined (pairs !! 0%nat);
  values ← defined (pairData !! pair0);
  d ← defined (values !! i);
  mret {| Dxy.date := formatDate (TwelveData.datetime d); Dxy.dxy := toFixed sum 1 |}.

(** [for (let i = 0; i < length; i++)] from [i] on, at most [fuel] turns. *)
Fixpoint proxy_loop (fuel : nat) (length : bound) (i : nat) (dxyProxy : list Dxy.point)
  : outcome (list Dxy.point) :=
  if below i length then
    match fuel with
    | O => Loops
    | S fuel' =>
        p ← proxy_point i;
        proxy_loop fuel' length (S i) (dxyProxy ++ [p])
    end
  else mret dxyProxy.

Definition proxy_length : bound :=
  Math_min (length <$> (map_to_list pairData).*2).

(** As many turns as the bound says; under no bound the first turn throws
    (see [proxy_loop_ends]). *)
Definition proxy_fuel : nat :=
  match proxy_length with
  | Finite n => n
  | Unbounded => 1
  end.

Definition dxyProxy : outcome (list Dxy.point) :=
  proxy_loop proxy_fuel proxy_length 0 [].
End Proxy.

Definition updateDollarIndex_fallback : M (option Dxy.t) :=
  pairData ← fetch_pairs pairs ∅;
  dxyProxy ← lift (dxyProxy pairData);
  newest ← lift (defined (dxyProxy !! 0%nat));
  let dxyData :=
    {| Dxy.lastUpdated := now w;
       Dxy.source := "Calculated DXY Proxy";
       Dxy.currentDXY := Dxy.dxy newest;
       Dxy.data := reverse dxyProxy |} in
  saveData "dollar-index.json" (DxyFile dxyData);;
  mret (Some dxyData).

Definition updateDollarIndex : M (option Dxy.t) :=
  try_catch updateDollarIndex_primary (fun error =>
    try_catch updateDollarIndex_fallback (fun proxyError => mret None)).

(** *** 4. Geopolitical events *)

(** [encodeURIComponent] of the keywords, worked out by hand. *)
Definition news_url (apiKey : string) : string :=
  "https://newsapi.org/v2/everything?q=" +:+
  "gold%20OR%20%22Federal%20Reserve%22%20OR%20China%20OR%20geopolitical%20OR%20%22Middle%20East%22%20OR%20tariffs"
  +:+ "&sortBy=publishedAt&pageSize=20&apiKey=" +:+ apiKey.

Definition severity_of (text : string) : Severity :=
  if matches ["war"; "crisis"; "attack"; "collapse"; "crash"] text then high
  else if matches ["tension"; "concern"; "risk"; "warning"; "threat"] text then medium
  else low.

Definition impact_of (text : string) (severity : Severity) : Impact :=
  if matches ["gold rises"; "gold rally"; "gold surge"; "gold gains"; "gold higher"] text
  then positive
  else if matches ["gold falls"; "gold decline"; "gold drop"; "gold lower"] text
  then negative
  else match severity with
       | high | medium => positive
       | low => neutral
       end.

Definition classify (text : string) : Severity * Impact :=
  let severity := severity_of text in (severity, impact_of text severity).

Definition article_text (article : NewsApi.article) : string :=
  toLowerCase (NewsApi.title article +:+ " " +:+ default "null" (NewsApi.description article)).

Definition to_event (article : NewsApi.article) : Geo.event_t :=
  let text := article_text article in
  {| Geo.date := split_first "T" (NewsApi.publishedAt article);
     Geo.event := substring0 120 (NewsApi.title article);
     Geo.severity := (classify text).1;
     Geo.impact := (classify text).2;
     Geo.url := NewsApi.url article |}.

Definition updateGeopoliticalEvents_body (apiKey : string) : M (option Geo.t) :=
  response ← fetch (news_url apiKey) (newsapi w);
  data ← json response;
  if bool_decide (NewsApi.status data = Some "error")
  then throw (Error (default "" (NewsApi.message data)))
  else
    articles ← lift (defined (NewsApi.articles data));
    let events := to_event <$> articles in
    let geoData :=
      {| Geo.lastUpdated := now w;
         Geo.source := "NewsAPI";
         Geo.events := take 15 events |} in
    saveData "geopolitical-events.json" (GeoFile geoData);;
    mret (Some geoData).

Definition updateGeopoliticalEvents : M (option Geo.t) :=
  if truthy (NEWS_API_KEY w)
  then try_catch (updateGeopoliticalEvents_body (key (NEWS_API_KEY w))) (fun error => mret None)
  else mret None.

(** *** Main *)

Record Results : Type := {
  goldPrice : option Gold.t;
  fedPolicy : option FedPolicy.t;
  dollarIndex : option Dxy.t;
  geopolitical : option Geo.t
}.

(** [Object.values(results).filter(v => v).length] *)
Definition successCount (results : Results) : nat :=
  length (List.filter (fun v : bool => v)
    [bool_decide (is_Some (goldPrice results)); bool_decide (is_Some (fedPolicy results));
     bool_decide (is_Some (dollarIndex results)); bool_decide (is_Some (geopolitical results))]).

(** [main] gives the results and the code of [process.exit] when it calls
    it. *)
Definition main : M (Results * option nat) :=
  goldPrice ← updateGoldPrice;
  delay 2000;;
  fedPolicy ← updateFedData;
  delay 2000;;
  dollarIndex ← updateDollarIndex;
  delay 2000;;
  geopolitical ← updateGeopoliticalEvents;
  let results :=
    {| goldPrice := goldPrice; fedPolicy := fedPolicy;
       dollarIndex := dollarIndex; geopolitical := geopolitical |} in
  if (successCount results =? 0)%nat then mret (results, Some 1%nat)
  else mret (results, None).

(** [main().catch(error => process.exit(1))]: the exit code of the process,
    0 when [main] returns. *)
Definition exit_code (s : State) : option nat :=
  match main s with
  | (Return (_, Some code), _) => Some code
  | (Return (_, None), _) => Some 0%nat
  | (Throw _, _) => Some 1%nat
  | (Loops, _) => None
  end.

End Script.

(** ** A runtime to run examples

    Decimals are read and combined exactly, and dates are read from the
    providers' ISO form [YYYY-MM-DD], with the local time zone at UTC as on
    the scheduled runner.  It stands in for a JavaScript engine on inputs
    where no rounding to a double changes the printed result. *)

Definition digit_of (c : ascii) : option Z :=
  let n := nat_of_ascii c in
  if (48 <=? n)%nat && (n <=? 57)%nat then Some (Z.of_nat (n - 48)) else None.

(** The digits at the head of [s]: their value on top of [acc], how many
    they are added to [count], and the rest of [s]. *)
Fixpoint read_digits (s : string) (acc : Z) (count : nat) : Z * nat * string :=
  match s with
  | String c s' =>
      match digit_of c with
      | Some d => read_digits s' (10 * acc + d)%Z (S count)
      | None => (acc, count, s)
      end
  | EmptyString => (acc, count, s)
  end.

Definition parse_decimal (s : string) : number :=
  let '(neg, s1) :=
    match s with
    | String "-" s' => (true, s')
    | _ => (false, s)
    end in
  let '(int, n_int, s2) := read_digits s1 0 0 in
  let '(all, n_frac) :=
    match s2 with
    | String "." s3 => let '(v, n, _) := read_digits s3 int 0 in (v, n)
    | _ => (int, 0%nat)
    end in
  if (n_int + n_frac =? 0)%nat then NaN
  else Num (Qred ((if neg then - all else all)%Z # Z.to_pos (10 ^ Z.of_nat n_frac))).

Definition exact_op (op : Q -> Q -> Q) (x y : number) : number :=
  match x, y with
  | Num a, Num b => Num (Qred (op a b))
  | _, _ => NaN
  end.

Definition iso_date (s : string) : option (Z * nat * nat) :=
  let '(y, ny, s1) := read_digits s 0 0 in
  match s1 with
  | String "-" s2 =>
      let '(m, nm, s3) := read_digits s2 0 0 in
      match s3 with
      | String "-" s4 =>
          let '(d, nd, _) := read_digits s4 0 0 in
          if (ny =? 4)%nat && (nm =? 2)%nat && (nd =? 2)%nat &&
             (1 <=? m)%Z && (m <=? 12)%Z && (1 <=? d)%Z && (d <=? 31)%Z
          then Some (y, Z.to_nat (m - 1), Z.to_nat d)
          else None
      | _ => None
      end
  | _ => None
  end.

Definition decimal_runtime : JsRuntime :=
  {| parseFloat := parse_decimal;
     literal := Num;
     fadd := exact_op Qplus;
     fmul := exact_op Qmult;
     Number_toString := fun x => match x with Num q => pretty (Qfloor q) | _ => "NaN" end;
     new_Date := iso_date |}.

Definition resolved {B : Type} (b : B) : fetched B :=
  Resolved {| ok := true; status := 200; json_body := Some b |}.

Definition start : State := {| requests := []; files := ∅; waited := 0 |}.

(** A world without keys in which every request fails, and variations of
    it. *)
Definition offline : World :=
  {| ALPHA_VANTAGE_KEY := None; FRED_KEY := None; TWELVE_DATA_KEY := None;
     NEWS_API_KEY := None; now := "2024-01-16T06:00:00.000Z";
     twelvedata := fun _ => Rejected "offline"; alphavantage := Rejected "offline";
     fred := fun _ => Rejected "offline"; newsapi := Rejected "offline" |}.

Definition with_twelvedata (answer : string -> fetched TwelveData.body) (w : World) : World :=
  {| ALPHA_VANTAGE_KEY := ALPHA_VANTAGE_KEY w; FRED_KEY := FRED_KEY w;
     TWELVE_DATA_KEY := Some "td-key"; NEWS_API_KEY := NEWS_API_KEY w; now := now w;
     twelvedata := answer; alphavantage := alphavantage w;
     fred := fred w; newsapi := newsapi w |}.

Definition with_alphavantage (answer : fetched AlphaVantage.body) (w : World) : World :=
  {| ALPHA_VANTAGE_KEY := Some "av-key"; FRED_KEY := FRED_KEY w;
     TWELVE_DATA_KEY := TWELVE_DATA_KEY w; NEWS_API_KEY := NEWS_API_KEY w; now := now w;
     twelvedata := twelvedata w; alphavantage := answer;
     fred := fred w; newsapi := newsapi w |}.

Definition with_fred (answer : string -> fetched Fred.body) (w : World) : World :=
  {| ALPHA_VANTAGE_KEY := ALPHA_VANTAGE_KEY w; FRED_KEY := Some "fred-key";
     TWELVE_DATA_KEY := TWELVE_DATA_KEY w; NEWS_API_KEY := NEWS_API_KEY w; now := now w;
     twelvedata := twelvedata w; alphavantage := alphavantage w;
     fred := answer; newsapi := newsapi w |}.

Definition with_newsapi (answer : fetched NewsApi.body) (w : World) : World :=
  {| ALPHA_VANTAGE_KEY := ALPHA_VANTAGE_KEY w; FRED_KEY := FRED_KEY w;
     TWELVE_DATA_KEY := TWELVE_DATA_KEY w; NEWS_API_KEY := Some "news-key"; now := now w;
     twelvedata := twelvedata w; alphavantage := alphavantage w;
     fred := fred w; newsapi := answer |}.

Definition series (values : list (string * string)) : fetched TwelveData.body :=
  resolved {| TwelveData.status := Some "ok"; TwelveData.message := None;
              TwelveData.values :=
                Some ((fun d => {| TwelveData.datetime := d.1; TwelveData.close := d.2 |})
                        <$> values) |}.

Definition observation (d : string * string) : Fred.observation :=
  {| Fred.date := d.1; Fred.value := d.2 |}.

Definition observations_of (values : list (string * string)) : fetched Fred.body :=
  resolved {| Fred.error_message := None;
              Fred.observations := Some (observation <$> values) |}.

(** Two days of gold closes, newest first, from Twelve Data. *)
Definition world_primary : World :=
  with_twelvedata
    (fun symbol =>
       if String.eqb symbol "XAU/USD"
       then series [("2024-01-16", "2034.56"); ("2024-01-15", "2029.40")]
       else Rejected "offline")
    offline.

(** The same two days from Alpha Vantage, while Twelve Data fails. *)
Definition world_fallback : World :=
  with_alphavantage
    (resolved {| AlphaVantage.Error_Message := None;
                 AlphaVantage.time_series :=
                   Some [("2024-01-16", {| AlphaVantage.close := "2034.56" |});
                         ("2024-01-15", {| AlphaVantage.close := "2029.40" |})] |})
    offline.

(** Alpha Vantage answers with an empty time series. *)
Definition world_empty_series : World :=
  with_alphavantage
    (resolved {| AlphaVantage.Error_Message := None; AlphaVantage.time_series := Some [] |})
    offline.

(** Two days of FRED observations, newest first; the real yield of the
    newer day, January 2, is missing. *)
Definition dff_two_days : list (string * string) :=
  [("2024-01-02", "5.33"); ("2024-01-01", "5.33")].

Definition yield_two_days : list (string * string) :=
  [("2024-01-02", "."); ("2024-01-01", "1.75")].

Definition world_missing_yield : World :=
  with_fred
    (fun series_id =>
       if String.eqb series_id "DFF" then observations_of dff_two_days
       else observations_of yield_two_days)
    offline.

(** One day of FRED observations, of which the rate is missing. *)
Definition world_no_pair : World :=
  with_fred
    (fun series_id =>
       if String.eqb series_id "DFF"
       then observations_of [("2024-01-01", ".")]
       else observations_of [("2024-01-01", "1.75")])
    offline.

(** No direct index; the four pairs answer, two with two days and two with
    three. *)
Definition world_pairs : World :=
  with_twelvedata
    (fun symbol =>
       if String.eqb symbol "EUR/USD"
       then series [("2024-01-16", "1.09"); ("2024-01-15", "1.10")]
       else if String.eqb symbol "USD/JPY"
       then series [("2024-01-16", "146.5"); ("2024-01-15", "145.0"); ("2024-01-12", "144.9")]
       else if String.eqb symbol "GBP/USD"
       then series [("2024-01-16", "1.27"); ("2024-01-15", "1.28")]
       else if String.eqb symbol "USD/CAD"
       then series [("2024-01-16", "1.35"); ("2024-01-15", "1.34"); ("2024-01-12", "1.34")]
       else Rejected "offline")
    offline.

(** The same, but the body for USD/JPY has no values. *)
Definition world_pair_missing : World :=
  with_twelvedata
    (fun symbol =>
       if String.eqb symbol "USD/JPY"
       then resolved {| TwelveData.status := Some "error";
                        TwelveData.message := Some "symbol not found";
                        TwelveData.values := None |}
       else twelvedata world_pairs symbol)
    offline.

Definition breaking_news : NewsApi.article :=
  {| NewsApi.title := "War breaks out, gold rises";
     NewsApi.description := None;
     NewsApi.publishedAt := "2024-01-15T10:30:00Z";
     NewsApi.url := "https://example.org/a" |}.

(** A news key and a response of one article. *)
Definition world_news : World :=
  with_newsapi
    (resolved {| NewsApi.status := Some "ok"; NewsApi.message := None;
                 NewsApi.articles := Some [breaking_news] |})
    offline.

(** A news key and a response of twenty articles. *)
Definition world_twenty : World :=
  with_newsapi
    (resolved {| NewsApi.status := Some "ok"; NewsApi.message := None;
                 NewsApi.articles := Some (replicate 20 breaking_news) |})
    offline.

(** The direct index answers with two days. *)
Definition world_index : World :=
  with_twelvedata
    (fun symbol =>
       if String.eqb symbol "DXY"
       then series [("2024-01-16", "103.41"); ("2024-01-15", "103.38")]
       else Rejected "offline")
    offline.

(** The four pairs answer, USD/JPY with an empty array of values. *)
Definition world_pair_empty : World :=
  with_twelvedata
    (fun symbol => if String.eqb symbol "USD/JPY" then series [] else twelvedata world_pairs symbol)
    offline.

(** FRED answers the rate request with an error message. *)
Definition world_fed_error : World :=
  with_fred
    (fun series_id =>
       if String.eqb series_id "DFF"
       then resolved {| Fred.error_message := Some "Bad Request.  The series does not exist.";
                        Fred.observations := None |}
       else observations_of yield_two_days)
    offline.

(** Twelve Data answers with a point of which neither the date nor the
    close can be read. *)
Definition world_garbage : World :=
  with_twelvedata
    (fun symbol => if String.eqb symbol "XAU/USD" then series [("soon", "n/a")]
                   else Rejected "offline")
    offline.

(** A text of the form ["<3-letter month> <day>, <4-digit year>"]. *)
Definition month_day_year (s : string) : Prop :=
  exists (m : string) (d : nat) (y : Z),
    m ∈ months /\ (1 <= d <= 31)%nat /\ (1000 <= y <= 9999)%Z /\
    s = m +:+ " " +:+ pretty d +:+ ", " +:+ pretty y.

(** [m] ends normally in every state. *)
Definition returns {A : Type} (m : M A) : Prop :=
  forall s, exists a s', m s = (Return a, s').

(** [m] ends, normally or by an exception, in every state. *)
Definition ends {A : Type} (m : M A) : Prop :=
  forall s, exists o s', m s = (o, s') /\ o <> Loops.

(** The state after [await delay(ms)]. *)
Definition later (ms : nat) (s : State) : State := (delay ms s).2.

(** A pair request that yields no data: the request fails, the body is not
    JSON, or the body has no [values]. *)
Definition no_data (answer : fetched TwelveData.body) : Prop :=
  match answer with
  | Rejected _ => True
  | Resolved r =>
      match json_body r with
      | None => True
      | Some b => TwelveData.values b = None
      end
  end.

(** The answer carries this [values] array. *)
Definition has_values (answer : fetched TwelveData.body) (values : list TwelveData.point) : Prop :=
  exists r b, answer = Resolved r /\ json_body r = Some b /\ TwelveData.values b = Some values.

(** The three ways in which the Twelve Data request of a symbol fails
    outright: the transport fails, the HTTP status is not OK, the body
    carries the error status. *)
Definition request_fails (answer : fetched TwelveData.body) : Prop :=
  match answer with
  | Rejected _ => True
  | Resolved r =>
      ok r = false \/
      exists data, json_body r = Some data /\ TwelveData.status data = Some "error"
  end.

(** The value the specification gives to the proxy at one position,
    [100 + Σ weight_i * rate_i], summed in the order of the pairs. *)
Definition proxy_value `{JsRuntime} (eur jpy gbp cad : TwelveData.point) : number :=
  fadd (fadd (fadd (fadd (literal 100%Q)
    (fmul (literal (-0.576)%Q) (parseFloat (TwelveData.close eur))))
    (fmul (literal 0.136%Q) (parseFloat (TwelveData.close jpy))))
    (fmul (literal (-0.119)%Q) (parseFloat (TwelveData.close gbp))))
    (fmul (literal 0.091%Q) (parseFloat (TwelveData.close cad))).

(** The pair data when all four requests gave values. *)
Definition all_pairs (eur jpy gbp cad : list TwelveData.point)
  : gmap string (list TwelveData.point) :=
  <["USD/CAD" := cad]> (<["GBP/USD" := gbp]> (<["USD/JPY" := jpy]> (<["EUR/USD" := eur]> ∅))).

(** The pairing as the specification words it: both series reversed to
    chronological order once, observations paired by index, incomplete
    pairs left out. *)
Definition paired_chronologically `{JsRuntime} (dff realYield : list Fred.observation)
  : list FedPolicy.point :=
  List.filter complete
    (imap (fun idx obs =>
             {| FedPolicy.date := formatDate (Fred.date obs);
                FedPolicy.fedRate := rate_text (Fred.value obs);
                FedPolicy.realYield :=
                  o ← reverse realYield !! idx; rate_text (Fred.value o) |})
          (reverse dff)).

(** A date that [formatDate] made. *)
Definition formatted `{JsRuntime} (date : string) : Prop :=
  exists native, date = formatDate native.

(** [k] occurs in [text]. *)
Definition occurs (k text : string) : Prop := exists a b, text = a +:+ k +:+ b.

(** The state after the requests [urls] went out, a wait of [ms] and no
    write. *)
Definition sent (urls : list string) (ms : nat) (s : State) : State :=
  {| requests := requests s ++ urls; files := files s; waited := waited s + ms |}.

(** The same, and [data] written to [filename] at the end. *)
Definition saved (filename : string) (data : Saved) (urls : list string) (ms : nat)
    (s : State) : State :=
  {| requests := requests s ++ urls;
     files := <[filename := data]> (files s);
     waited := waited s + ms |}.

(** * Properties *)

(** ** Strings and numbers *)

Lemma prefix_app (p t : string) :
  String.prefix p t = true <-> exists b, t = p +:+ b.
Proof.
  revert t. induction p as [|c p IH]; intros t; simpl.
  - split; [intros _; by exists t | by destruct t].
  - destruct t as [|c' t]; simpl.
    + split; [done | intros [b Hb]; discriminate].
    + destruct (ascii_dec c c') as [->|Hne].
      * rewrite IH. split; intros [b Hb]; exists b; [by rewrite Hb | by injection Hb].
      * split; [done | intros [b Hb]; injection Hb; congruence].
Qed.

(** [includes pat text] says that [pat] occurs in [text]. *)
Lemma includes_occurs (pat text : string) :
  includes pat text = true <-> exists a b, text = a +:+ pat +:+ b.
Proof.
  induction text as [|c text IH].
  - cbn [includes]. rewrite orb_false_r, prefix_app. split.
    + intros [b Hb]. by exists "", b.
    + intros [a [b Hab]]. destruct a; [by exists b | discriminate].
  - cbn [includes]. rewrite orb_true_iff, prefix_app, IH. split.
    + intros [[b Hb] | [a [b Hab]]].
      * by exists "", b.
      * exists (String c a), b. simpl. by rewrite Hab.
    + intros [a [b Hab]]. destruct a as [|c' a].
      * left. by exists b.
      * right. exists a, b. simpl in Hab. by injection Hab.
Qed.

Lemma Math_round_nearest (q : Q) :
  exists z : Z,
    Math_round (Num q) = Num (inject_Z z) /\
    (inject_Z z - (1 # 2) <= q)%Q /\ (q < inject_Z z + (1 # 2))%Q /\
    ((0 <= q)%Q -> (0 <= z)%Z).
Proof.
  exists (Qfloor (q + (1 # 2))). split; [done |].
  pose proof (Qfloor_le (q + (1 # 2))) as Hle.
  pose proof (Qlt_floor (q + (1 # 2))) as Hlt.
  rewrite inject_Z_plus in Hlt.
  split; [| split].
  - apply (Qplus_le_l _ _ (1 # 2)). by ring_simplify.
  - apply (Qplus_lt_l _ _ (1 # 2)).
    eapply Qlt_le_trans; [exact Hlt |]. apply Qle_lteq. right. ring.
  - intros Hq. change 0%Z with (Qfloor 0). apply Qfloor_resp_le.
    apply Qle_trans with q; [done |].
    rewrite <- (Qplus_0_r q) at 1. by apply Qplus_le_r.
Qed.

(** ** The monad *)

Ltac unfold_M :=
  unfold json, fetch, delay, saveData, throw, lift, defined, mbind, M_bind, mret, M_ret in *.

Lemma try_catch_return {A : Type} (body : M A) (handler : exn -> M A) (s s' : State) (a : A) :
  body s = (Return a, s') -> try_catch body handler s = (Return a, s').
Proof. unfold try_catch. by intros ->. Qed.

Lemma try_catch_throw {A : Type} (body : M A) (handler : exn -> M A) (s s' : State) (e : exn) :
  body s = (Throw e, s') -> try_catch body handler s = handler e s'.
Proof. unfold try_catch. by intros ->. Qed.

Lemma returns_try_catch {A : Type} (body : M A) (handler : exn -> M A) :
  ends body -> (forall e, returns (handler e)) -> returns (try_catch body handler).
Proof.
  intros Hbody Hhandler s. unfold try_catch.
  destruct (Hbody s) as (o & s' & -> & Ho).
  destruct o as [a|e|]; [by eauto | apply Hhandler | done].
Qed.

Lemma returns_ret {A : Type} (a : A) : returns (mret a).
Proof. intros s. by exists a, s. Qed.

Lemma ends_bind {A B : Type} (m : M A) (f : A -> M B) :
  ends m -> (forall a, ends (f a)) -> ends (m ≫= f).
Proof.
  intros Hm Hf s. unfold mbind, M_bind.
  destruct (Hm s) as (o & s' & -> & Ho).
  destruct o as [a|e|]; [apply Hf | by eauto | done].
Qed.

Lemma ends_ret {A : Type} (a : A) : ends (mret a : M A).
Proof. intros s. by exists (Return a), s. Qed.

Lemma ends_throw {A : Type} (e : exn) : ends (throw e : M A).
Proof. intros s. by exists (Throw e), s. Qed.

Lemma ends_lift {A : Type} (o : outcome A) : o <> Loops -> ends (lift o).
Proof. intros Ho s. by exists o, s. Qed.

Lemma ends_defined {A : Type} (v : option A) : ends (lift (defined v)).
Proof. apply ends_lift. by destruct v. Qed.

Lemma ends_fetch {B : Type} (url : string) (answer : fetched B) : ends (fetch url answer).
Proof. intros s. unfold fetch. destruct answer; eauto. Qed.

Lemma ends_json {B : Type} (r : response B) : ends (json r).
Proof. unfold json. destruct (json_body r); [apply ends_ret | apply ends_throw]. Qed.

Lemma ends_delay (ms : nat) : ends (delay ms).
Proof. intros s. unfold delay. eauto. Qed.

Lemma ends_saveData (filename : string) (data : Saved) : ends (saveData filename data).
Proof. intros s. unfold saveData. eauto. Qed.

Create HintDb ends.
#[export] Hint Resolve ends_ret ends_throw ends_defined ends_fetch ends_json ends_delay
  ends_saveData : ends.

Ltac ends_steps :=
  repeat first
    [ apply ends_bind; [| intros ?]
    | progress auto with ends
    | match goal with |- ends (if ?b then _ else _) => destruct b end ].

Section Properties.
Context `{JsRuntime} (w : World).

(** ** 1. Gold price *)

Lemma ends_updateGoldPrice_primary : ends (updateGoldPrice_primary w).
Proof. unfold updateGoldPrice_primary. ends_steps. Qed.

Lemma ends_updateGoldPrice_fallback : ends (updateGoldPrice_fallback w).
Proof. unfold updateGoldPrice_fallback. ends_steps. Qed.

Lemma returns_updateGoldPrice : returns (updateGoldPrice w).
Proof.
  apply returns_try_catch; [apply ends_updateGoldPrice_primary |].
  intros _. apply returns_try_catch; [apply ends_updateGoldPrice_fallback |].
  intros _. apply returns_ret.
Qed.

Lemma updateGoldPrice_primary_success s r data values newest :
  twelvedata w "XAU/USD" = Resolved r -> ok r = true -> json_body r = Some data ->
  TwelveData.status data <> Some "error" ->
  TwelveData.values data = Some values -> values !! 0%nat = Some newest ->
  let goldData :=
    {| Gold.lastUpdated := now w;
       Gold.currentPrice := parseFloat (TwelveData.close newest);
       Gold.source := "Twelve Data API";
       Gold.history := gold_point <$> reverse (take 180 values) |} in
  updateGoldPrice_primary w s =
    (Return (Some goldData), saved "gold-price.json" (GoldFile goldData) [gold_url w] 0 s).
Proof.
  intros Hfetch Hok Hjson Hstatus Hvalues Hnewest goldData.
  unfold updateGoldPrice_primary. unfold_M.
  rewrite Hfetch, Hok. simpl. rewrite Hjson. simpl.
  rewrite bool_decide_eq_false_2 by done.
  rewrite Hvalues, Hnewest. unfold saved. simpl. by rewrite Nat.add_0_r.
Qed.

(** C4.  A successful Twelve Data response, newest point first, is saved
    with the close of its first point as the current price and with the
    latest 180 points in chronological order as the history, at most 180
    long; each price of the history is [Math.round] of the parsed close,
    which for a finite close is the nearest integer, and not negative when
    the close is not. *)
Theorem C4_primary_price_normalised (s : State) r data values newest :
  twelvedata w "XAU/USD" = Resolved r -> ok r = true -> json_body r = Some data ->
  TwelveData.status data <> Some "error" ->
  TwelveData.values data = Some values -> values !! 0%nat = Some newest ->
  exists goldData s',
    updateGoldPrice w s = (Return (Some goldData), s') /\
    files s' !! "gold-price.json" = Some (GoldFile goldData) /\
    Gold.source goldData = "Twelve Data API" /\
    Gold.currentPrice goldData = parseFloat (TwelveData.close newest) /\
    Gold.history goldData = gold_point <$> reverse (take 180 values) /\
    length (Gold.history goldData) = 180 `min` length values /\
    length (Gold.history goldData) <= 180 /\
    (forall i, i < length (Gold.history goldData) ->
       Gold.history goldData !! i =
       gold_point <$> values !! (length (Gold.history goldData) - 1 - i)) /\
    Forall (fun p => exists d, d ∈ values /\
              Gold.price p = Math_round (parseFloat (TwelveData.close d)) /\
              forall q, parseFloat (TwelveData.close d) = Num q ->
                exists z : Z, Gold.price p = Num (inject_Z z) /\
                  (inject_Z z - (1 # 2) <= q)%Q /\ (q < inject_Z z + (1 # 2))%Q /\
                  ((0 <= q)%Q -> (0 <= z)%Z))
           (Gold.history goldData).
Proof.
  intros Hfetch Hok Hjson Hstatus Hvalues Hnewest.
  eexists _, _. split.
  { apply try_catch_return. by eapply updateGoldPrice_primary_success. }
  cbn [Gold.history Gold.source Gold.currentPrice saved files].
  assert (length (gold_point <$> reverse (take 180 values)) = 180 `min` length values) as Hlen
    by (by rewrite length_fmap, length_reverse, length_take).
  split; [by rewrite lookup_insert_eq |].
  do 4 (split; [done |]).
  split; [lia |]. split.
  - intros i Hi. rewrite Hlen in *.
    rewrite list_lookup_fmap, reverse_lookup by (rewrite length_take; lia).
    rewrite length_take, lookup_take_lt by lia.
    do 2 f_equal. lia.
  - apply Forall_fmap, Forall_forall. intros d Hd.
    rewrite elem_of_reverse in Hd. apply elem_of_take in Hd as (i & Hd & _).
    exists d. split; [by eapply list_elem_of_lookup_2 |]. split; [done |].
    intros q Hq. cbn [gold_point Gold.price]. rewrite Hq. apply Math_round_nearest.
Qed.

Lemma updateGoldPrice_primary_failure s :
  request_fails (twelvedata w "XAU/USD") ->
  exists e, updateGoldPrice_primary w s = (Throw e, sent [gold_url w] 0 s).
Proof.
  unfold request_fails, updateGoldPrice_primary, sent. unfold_M.
  rewrite Nat.add_0_r.
  destruct (twelvedata w "XAU/USD") as [reason|r]; [by eauto |].
  intros [Hok | (data & Hjson & Hstatus)].
  - rewrite Hok. simpl. by eauto.
  - destruct (ok r); simpl; [| by eauto].
    rewrite Hjson. simpl. rewrite bool_decide_eq_true_2 by done. by eauto.
Qed.

Lemma updateGoldPrice_fallback_success s r fallbackData timeSeries :
  alphavantage w = Resolved r -> json_body r = Some fallbackData ->
  truthy (AlphaVantage.Error_Message fallbackData) = false ->
  AlphaVantage.time_series fallbackData = Some timeSeries -> timeSeries <> [] ->
  exists newest,
    timeSeries !! 0%nat = Some newest /\
    let goldData :=
      {| Gold.lastUpdated := now w;
         Gold.currentPrice := Gold.price (gold_fallback_point newest);
         Gold.source := "Alpha Vantage API (fallback)";
         Gold.history := gold_fallback_point <$> reverse (take 180 timeSeries) |} in
    last (Gold.history goldData) = Some (gold_fallback_point newest) /\
    updateGoldPrice_fallback w s =
      (Return (Some goldData),
       saved "gold-price.json" (GoldFile goldData) [gold_fallback_url w] 0 s).
Proof.
  intros Hfetch Hjson Herror Hseries Hne.
  destruct timeSeries as [|newest rest]; [done |]. exists newest. split; [done |].
  assert (last (gold_fallback_point <$> reverse (take 180 (newest :: rest)))
          = Some (gold_fallback_point newest)) as Hlast
    by (by rewrite fmap_last, last_reverse).
  split; [done |].
  unfold updateGoldPrice_fallback. unfold_M.
  rewrite Hfetch. simpl. rewrite Hjson. simpl. rewrite Herror, Hseries, Hlast.
  unfold saved. simpl. by rewrite Nat.add_0_r.
Qed.

(** C5.  When the Twelve Data request fails (transport error, HTTP status
    not OK, or error status in the body) and Alpha Vantage answers with a
    time series that is not empty and no error message, the record saved
    for the price names the fallback as its source, not the primary, and
    its current price is the price of the last point of its history. *)
Theorem C5_fallback_source_label (s : State) r fallbackData timeSeries :
  request_fails (twelvedata w "XAU/USD") ->
  alphavantage w = Resolved r -> json_body r = Some fallbackData ->
  truthy (AlphaVantage.Error_Message fallbackData) = false ->
  AlphaVantage.time_series fallbackData = Some timeSeries -> timeSeries <> [] ->
  exists goldData s',
    updateGoldPrice w s = (Return (Some goldData), s') /\
    files s' !! "gold-price.json" = Some (GoldFile goldData) /\
    Gold.source goldData = "Alpha Vantage API (fallback)" /\
    Gold.source goldData <> "Twelve Data API" /\
    Gold.history goldData = gold_fallback_point <$> reverse (take 180 timeSeries) /\
    exists p, last (Gold.history goldData) = Some p /\
              Gold.currentPrice goldData = Gold.price p.
Proof.
  intros Hprimary Hfetch Hjson Herror Hseries Hne.
  destruct (updateGoldPrice_primary_failure s Hprimary) as [e He].
  destruct (updateGoldPrice_fallback_success (sent [gold_url w] 0 s) _ _ _
              Hfetch Hjson Herror Hseries Hne) as (newest & _ & Hlast & Hrun).
  eexists _, _. split.
  { unfold updateGoldPrice. rewrite (try_catch_throw _ _ _ _ _ He).
    apply try_catch_return, Hrun. }
  cbn [saved files Gold.source Gold.history Gold.currentPrice].
  split; [by rewrite lookup_insert_eq |].
  do 3 (split; [done |]). eauto.
Qed.

(** An empty time series: the lookup of the last point of the history
    throws, and the inner [catch] gives [null]. *)
Lemma updateGoldPrice_empty_series s s1 e r fallbackData :
  updateGoldPrice_primary w s = (Throw e, s1) ->
  alphavantage w = Resolved r -> json_body r = Some fallbackData ->
  AlphaVantage.time_series fallbackData = Some [] ->
  updateGoldPrice w s = (Return None, sent [gold_fallback_url w] 0 s1).
Proof.
  intros Hprimary Hfetch Hjson Hseries.
  unfold updateGoldPrice. rewrite (try_catch_throw _ _ _ _ _ Hprimary).
  unfold try_catch, updateGoldPrice_fallback, sent. unfold_M.
  rewrite Hfetch. simpl. rewrite Hjson. simpl. rewrite Hseries, Nat.add_0_r.
  by destruct (truthy _).
Qed.

(** ** 2. Fed policy *)

Lemma combine_from_ends dff idx realYield : combine_from dff idx realYield <> Loops.
Proof.
  revert idx realYield. induction dff as [|obs rest IH]; intros idx realYield; [done |].
  cbn [combine_from]. destruct realYield as [observations|]; [| done]. simpl.
  specialize (IH (S idx) (Some (reverse observations))).
  by destruct (combine_from rest (S idx) (Some (reverse observations))).
Qed.

Lemma combinedData_ends dffData realYieldData : combinedData dffData realYieldData <> Loops.
Proof.
  unfold combinedData. destruct (Fred.observations dffData) as [observations|]; [| done].
  simpl.
  pose proof (combine_from_ends (reverse observations) 0 (Fred.observations realYieldData)).
  by destruct (combine_from (reverse observations) 0 (Fred.observations realYieldData)).
Qed.

Lemma ends_updateFedData_body : ends (updateFedData_body w).
Proof.
  unfold updateFedData_body. ends_steps. apply ends_lift, combinedData_ends.
Qed.

Lemma returns_updateFedData : returns (updateFedData w).
Proof.
  apply returns_try_catch; [apply ends_updateFedData_body |]. intros _. apply returns_ret.
Qed.

Lemma updateFedData_body_run s r1 dffData r2 realYieldData :
  fred w "DFF" = Resolved r1 -> json_body r1 = Some dffData ->
  fred w "DFII10" = Resolved r2 -> json_body r2 = Some realYieldData ->
  truthy (Fred.error_message dffData) = false ->
  truthy (Fred.error_message realYieldData) = false ->
  let s1 := sent [fred_url w "DFF"; fred_url w "DFII10"] 1000 s in
  updateFedData_body w s =
    match combinedData dffData realYieldData with
    | Return combined =>
        match last combined with
        | Some current =>
            let fedData :=
              {| FedPolicy.lastUpdated := now w;
                 FedPolicy.source := "Federal Reserve Economic Data (FRED)";
                 FedPolicy.currentFedRate := FedPolicy.fedRate current;
                 FedPolicy.currentRealYield := FedPolicy.realYield current;
                 FedPolicy.data := slice_last 180 combined |} in
            (Return (Some fedData),
             saved "fed-policy.json" (FedFile fedData)
               [fred_url w "DFF"; fred_url w "DFII10"] 1000 s)
        | None => (Throw TypeError, s1)
        end
    | Throw e => (Throw e, s1)
    | Loops => (Loops, s1)
    end.
Proof.
  intros Hf1 Hj1 Hf2 Hj2 He1 He2 s1. subst s1.
  unfold updateFedData_body, sent, saved. unfold_M.
  rewrite Hf1. simpl. rewrite Hj1. simpl. rewrite Hf2. simpl. rewrite Hj2. simpl.
  rewrite He1, He2. simpl. rewrite <- (assoc_L (++)). simpl.
  destruct (combinedData dffData realYieldData) as [combined|e|]; [| done | done].
  by destruct (last combined).
Qed.

(** What the pairing computes: the observation at index [j] of the
    chronological rate series meets index [idx + j] of the real-yield array
    as the call finds it after its own [reverse()], which is the reversed
    array at an even [j] and the array as it was at an odd [j]. *)
Lemma combine_from_lookup dff idx realYield j obs :
  dff !! j = Some obs ->
  exists mapped,
    combine_from dff idx (Some realYield) = Return mapped /\
    length mapped = length dff /\
    mapped !! j = Some
      {| FedPolicy.date := formatDate (Fred.date obs);
         FedPolicy.fedRate := rate_text (Fred.value obs);
         FedPolicy.realYield :=
           o ← (if Nat.even j then reverse realYield else realYield) !! (idx + j);
           rate_text (Fred.value o) |}.
Proof.
  revert idx realYield j. induction dff as [|first rest IH]; intros idx realYield j Hj; [done |].
  cbn [combine_from combine_obs]. simpl.
  assert (exists mapped, combine_from rest (S idx) (Some (reverse realYield)) = Return mapped
                         /\ length mapped = length rest) as (mapped & Hmapped & Hlen).
  { clear. revert idx realYield. induction rest as [|o rest IH]; intros idx realYield.
    - by exists [].
    - cbn [combine_from combine_obs]. simpl.
      destruct (IH (S idx) (reverse realYield)) as (mapped & -> & Hlen).
      eexists. split; [done |]. simpl. by rewrite Hlen. }
  destruct j as [|j].
  - injection Hj as ->. rewrite Hmapped. simpl. eexists. split; [done |].
    split; [simpl; by rewrite Hlen |]. simpl. rewrite Nat.add_0_r.
    by destruct (reverse realYield !! idx).
  - simpl in Hj. destruct (IH (S idx) (reverse realYield) j Hj) as (mapped' & Hrun & _ & Hlookup).
    rewrite Hrun. eexists. split; [reflexivity |].
    rewrite Hrun in Hmapped. injection Hmapped as ->.
    split; [simpl; by rewrite Hlen |]. trans (mapped !! j); [done |]. rewrite Hlookup.
    rewrite reverse_involutive, Nat.even_succ, <- Nat.negb_even.
    replace (idx + S j) with (S idx + j) by lia.
    by destruct (Nat.even j).
Qed.

Lemma updateFedData_all_filtered s r1 dffData r2 realYieldData :
  fred w "DFF" = Resolved r1 -> json_body r1 = Some dffData ->
  fred w "DFII10" = Resolved r2 -> json_body r2 = Some realYieldData ->
  truthy (Fred.error_message dffData) = false ->
  truthy (Fred.error_message realYieldData) = false ->
  combinedData dffData realYieldData = Return [] ->
  updateFedData w s = (Return None, sent [fred_url w "DFF"; fred_url w "DFII10"] 1000 s).
Proof.
  intros Hf1 Hj1 Hf2 Hj2 He1 He2 Hcombined. unfold updateFedData, try_catch.
  rewrite (updateFedData_body_run s _ _ _ _ Hf1 Hj1 Hf2 Hj2 He1 He2), Hcombined. done.
Qed.

(** ** 3. Dollar index *)

Lemma Math_min_cons n lengths :
  Math_min (n :: lengths) =
  Finite match Math_min lengths with Finite m => n `min` m | Unbounded => n end.
Proof. unfold Math_min. simpl. by destruct (foldr _ _ _). Qed.

Lemma Math_min_Unbounded lengths : Math_min lengths = Unbounded <-> lengths = [].
Proof. destruct lengths; [done |]. by rewrite Math_min_cons. Qed.

Lemma Math_min_least lengths n :
  Math_min lengths = Finite n <-> n ∈ lengths /\ Forall (le n) lengths.
Proof.
  revert n. induction lengths as [|k lengths IH]; intros n.
  - split; [done | intros [Hin _]; by apply elem_of_nil in Hin].
  - rewrite Math_min_cons, Forall_cons, elem_of_cons.
    destruct (Math_min lengths) as [m|] eqn:Hm.
    + destruct (IH m) as [[Hin Hall] _]; [done |].
      split.
      * intros [= <-]. split; [| split; [lia |]].
        -- destruct (Nat.min_spec k m) as [[_ ->] | [_ ->]]; auto.
        -- eapply Forall_impl; [exact Hall |]. simpl. lia.
      * intros [Hn [Hk Hle]]. f_equal.
        rewrite Forall_forall in Hle, Hall. specialize (Hle m Hin).
        destruct Hn as [-> | Hn]; [lia |]. specialize (Hall n Hn). lia.
    + apply Math_min_Unbounded in Hm as ->. split.
      * intros [= <-]. split; [by left | done].
      * intros [[-> | Hin] _]; [done | by apply elem_of_nil in Hin].
Qed.

Lemma proxy_length_Finite (pairData : gmap string (list TwelveData.point)) n :
  proxy_length pairData = Finite n <->
  (exists k values, pairData !! k = Some values /\ length values = n) /\
  (forall k values, pairData !! k = Some values -> n <= length values).
Proof.
  unfold proxy_length. rewrite Math_min_least, Forall_forall.
  setoid_rewrite list_elem_of_fmap. split.
  - intros [(values & -> & Hin) Hle]. apply list_elem_of_fmap in Hin as ([k v] & -> & Hin).
    apply elem_of_map_to_list in Hin. split; [by eauto |].
    intros k' values Hk'. apply Hle. exists values. split; [done |].
    apply list_elem_of_fmap. exists (k', values). by rewrite elem_of_map_to_list.
  - intros [(k & values & Hk & <-) Hle]. split.
    + exists values. split; [done |]. apply list_elem_of_fmap.
      exists (k, values). by rewrite elem_of_map_to_list.
    + intros m (values' & -> & Hin). apply list_elem_of_fmap in Hin as ([k' v] & -> & Hin).
      apply elem_of_map_to_list in Hin. by eapply Hle.
Qed.

Lemma proxy_length_Unbounded (pairData : gmap string (list TwelveData.point)) :
  proxy_length pairData = Unbounded <-> pairData = ∅.
Proof.
  unfold proxy_length. rewrite Math_min_Unbounded. split.
  - intros Hnil. apply fmap_nil_inv, fmap_nil_inv in Hnil. by apply map_to_list_empty_iff.
  - intros ->. by rewrite map_to_list_empty.
Qed.

Section ProxyProperties.
Variable pairData : gmap string (list TwelveData.point).

Lemma add_pair_throw i e pair : add_pair pairData i (Throw e) pair = Throw e.
Proof. done. Qed.

Lemma foldl_add_pair_throw i e todo : foldl (add_pair pairData i) (Throw e) todo = Throw e.
Proof. induction todo; [done | simpl; by rewrite IHtodo]. Qed.

Lemma foldl_add_pair_ends i sum todo :
  sum <> Loops -> foldl (add_pair pairData i) sum todo <> Loops.
Proof.
  revert sum. induction todo as [|pair todo IH]; intros sum Hsum; [done |].
  simpl. apply IH. destruct sum as [x|e|]; [| done | done]. simpl.
  destruct (pairData !! pair) as [values|]; [| done]. simpl.
  by destruct (values !! i).
Qed.

(** A pair without data makes every turn of the loop throw. *)
Lemma weightedSum_missing i pair :
  pair ∈ pairs -> pairData !! pair = None -> exists e, weightedSum pairData i = Throw e.
Proof.
  intros Hin Hnone. apply list_elem_of_split in Hin as (before & after & Hsplit).
  unfold weightedSum. rewrite Hsplit, foldl_app. simpl.
  pose proof (foldl_add_pair_ends i (mret (literal 100%Q)) before) as Hends.
  destruct (foldl (add_pair pairData i) (mret (literal 100%Q)) before) as [sum|e|].
  - simpl. rewrite Hnone. simpl. rewrite foldl_add_pair_throw. by eauto.
  - rewrite add_pair_throw, foldl_add_pair_throw. by eauto.
  - by destruct Hends.
Qed.

Lemma proxy_point_ends i : proxy_point pairData i <> Loops.
Proof.
  unfold proxy_point, weightedSum.
  pose proof (foldl_add_pair_ends i (mret (literal 100%Q)) pairs) as Hends.
  destruct (foldl (add_pair pairData i) (mret (literal 100%Q)) pairs) as [sum|e|];
    [| done | by destruct Hends].
  simpl. destruct (pairData !! "EUR/USD") as [values|]; [| done]. simpl.
  by destruct (values !! i).
Qed.

Lemma proxy_point_missing i pair :
  pair ∈ pairs -> pairData !! pair = None -> exists e, proxy_point pairData i = Throw e.
Proof.
  intros Hin Hnone. destruct (weightedSum_missing i pair Hin Hnone) as [e He].
  unfold proxy_point. rewrite He. by eauto.
Qed.

(** The loop ends when its fuel covers the turns that are left. *)
Lemma proxy_loop_fuel fuel n i dxyProxy :
  n <= fuel + i -> proxy_loop pairData fuel (Finite n) i dxyProxy <> Loops.
Proof.
  revert i dxyProxy. induction fuel as [|fuel IH]; intros i dxyProxy Hfuel; simpl.
  - destruct (Nat.ltb_spec i n); [lia | done].
  - destruct (i <? n)%nat; [| done].
    pose proof (proxy_point_ends i) as Hends.
    destruct (proxy_point pairData i) as [p|e|]; [| done | done].
    simpl. apply IH. lia.
Qed.

(** More fuel does not change the result of a loop that ends. *)
Lemma proxy_loop_more_fuel fuel fuel' length i dxyProxy :
  fuel <= fuel' -> proxy_loop pairData fuel length i dxyProxy <> Loops ->
  proxy_loop pairData fuel' length i dxyProxy = proxy_loop pairData fuel length i dxyProxy.
Proof.
  revert fuel' i dxyProxy. induction fuel as [|fuel IH]; intros fuel' i dxyProxy Hle Hends.
  - simpl in *. destruct fuel'; simpl; destruct (below i length); done.
  - destruct fuel' as [|fuel']; [lia |]. simpl in *.
    destruct (below i length); [| done].
    destruct (proxy_point pairData i) as [p|e|]; [| done | done].
    simpl in *. apply IH; [lia | done].
Qed.

(** The turns of a bounded loop that all succeed. *)
Lemma proxy_loop_points n (point : nat -> Dxy.point) turns i dxyProxy :
  (forall j, i <= j < n -> proxy_point pairData j = Return (point j)) ->
  i + turns = n ->
  proxy_loop pairData turns (Finite n) i dxyProxy = Return (dxyProxy ++ (point <$> seq i turns))%list.
Proof.
  intros Hpoint. revert i dxyProxy Hpoint.
  induction turns as [|turns IH]; intros i dxyProxy Hpoint Hn; simpl.
  - destruct (Nat.ltb_spec i n); [lia |]. by rewrite app_nil_r.
  - destruct (Nat.ltb_spec i n); [| lia].
    rewrite Hpoint by lia. simpl. rewrite IH; [| intros j Hj; apply Hpoint; lia | lia].
    by rewrite <- (assoc_L (++)).
Qed.

(** The loop ends with the fuel that [dxyProxy] gives it. *)
Lemma proxy_loop_ends : dxyProxy pairData <> Loops.
Proof.
  unfold dxyProxy, proxy_fuel. destruct (proxy_length pairData) as [n|] eqn:Hlength.
  - apply proxy_loop_fuel. lia.
  - apply proxy_length_Unbounded in Hlength. simpl.
    destruct (proxy_point_missing 0 "EUR/USD") as [e ->]; [set_solver | | done].
    by rewrite Hlength.
Qed.

(** Without the data of one pair the loop throws or makes no turn. *)
Lemma dxyProxy_missing pair :
  pair ∈ pairs -> pairData !! pair = None ->
  dxyProxy pairData = Return [] \/ exists e, dxyProxy pairData = Throw e.
Proof.
  intros Hin Hnone. destruct (proxy_point_missing 0 pair Hin Hnone) as [e He].
  unfold dxyProxy, proxy_fuel. destruct (proxy_length pairData) as [[|n]|]; simpl.
  - by left.
  - rewrite He. by eauto.
  - rewrite He. by eauto.
Qed.

End ProxyProperties.

Lemma ends_fetch_pairs todo pairData : ends (fetch_pairs w todo pairData).
Proof.
  revert pairData. induction todo as [|symbol rest IH]; intros pairData; simpl.
  - apply ends_ret.
  - ends_steps.
Qed.

Lemma ends_updateDollarIndex_primary : ends (updateDollarIndex_primary w).
Proof. unfold updateDollarIndex_primary. ends_steps. Qed.

Lemma ends_updateDollarIndex_fallback : ends (updateDollarIndex_fallback w).
Proof.
  unfold updateDollarIndex_fallback.
  apply ends_bind; [apply ends_fetch_pairs | intros pairData].
  apply ends_bind; [apply ends_lift, proxy_loop_ends | intros dxyProxy].
  ends_steps.
Qed.

Lemma returns_updateDollarIndex : returns (updateDollarIndex w).
Proof.
  apply returns_try_catch; [apply ends_updateDollarIndex_primary |].
  intros _. apply returns_try_catch; [apply ends_updateDollarIndex_fallback |].
  intros _. apply returns_ret.
Qed.

(** The pair requests write no file, and a pair without data is not in
    the pair data. *)
Lemma fetch_pairs_missing todo pairData s pair :
  no_data (twelvedata w pair) -> pairData !! pair = None ->
  exists o s', fetch_pairs w todo pairData s = (o, s') /\ files s' = files s /\
    match o with
    | Return pairData' => pairData' !! pair = None
    | Throw _ => True
    | Loops => False
    end.
Proof.
  intros Hno. revert pairData s. induction todo as [|symbol rest IH]; intros pairData s Hnone.
  - by exists (Return pairData), s.
  - simpl. unfold_M.
    destruct (twelvedata w symbol) as [reason|r] eqn:Hanswer; [by eauto 6 |].
    destruct (json_body r) as [b|] eqn:Hbody; simpl; [| by eauto 6].
    match goal with |- context [fetch_pairs w rest ?pd ?s1] =>
      destruct (IH pd s1) as (o & s' & -> & Hfiles & Ho) end; [| by eauto].
    destruct (TwelveData.values b) as [values|] eqn:Hvalues; [| done].
    destruct (decide (symbol = pair)) as [->|Hne]; [| by rewrite lookup_insert_ne].
    unfold no_data in Hno. by rewrite Hanswer, Hbody, Hvalues in Hno.
Qed.

Lemma sent_sent urls1 ms1 urls2 ms2 s :
  sent urls2 ms2 (sent urls1 ms1 s) = sent (urls1 ++ urls2) (ms1 + ms2) s.
Proof. unfold sent. simpl. by rewrite (assoc_L (++)), Nat.add_assoc. Qed.

Lemma fetch_pairs_step symbol rest pairData s values :
  has_values (twelvedata w symbol) values ->
  fetch_pairs w (symbol :: rest) pairData s =
  fetch_pairs w rest (<[symbol := values]> pairData) (sent [series_url w symbol "180"] 1000 s).
Proof.
  intros (r & b & Hanswer & Hbody & Hvalues). simpl. unfold_M.
  rewrite Hanswer. simpl. by rewrite Hbody, Hvalues.
Qed.

Lemma fetch_pairs_all s eur jpy gbp cad :
  has_values (twelvedata w "EUR/USD") eur -> has_values (twelvedata w "USD/JPY") jpy ->
  has_values (twelvedata w "GBP/USD") gbp -> has_values (twelvedata w "USD/CAD") cad ->
  fetch_pairs w pairs ∅ s =
    (Return (all_pairs eur jpy gbp cad),
     sent [series_url w "EUR/USD" "180"; series_url w "USD/JPY" "180";
           series_url w "GBP/USD" "180"; series_url w "USD/CAD" "180"] 4000 s).
Proof.
  intros Heur Hjpy Hgbp Hcad. unfold pairs.
  rewrite (fetch_pairs_step _ _ _ _ _ Heur), (fetch_pairs_step _ _ _ _ _ Hjpy),
    (fetch_pairs_step _ _ _ _ _ Hgbp), (fetch_pairs_step _ _ _ _ _ Hcad).
  by rewrite !sent_sent.
Qed.

Lemma all_pairs_lookup eur jpy gbp cad k values :
  all_pairs eur jpy gbp cad !! k = Some values <->
  (k = "EUR/USD" /\ values = eur) \/ (k = "USD/JPY" /\ values = jpy) \/
  (k = "GBP/USD" /\ values = gbp) \/ (k = "USD/CAD" /\ values = cad).
Proof.
  unfold all_pairs. rewrite !lookup_insert_Some, lookup_empty. split.
  - intros [[<- <-] | [_ [[<- <-] | [_ [[<- <-] | [_ [[<- <-] | [_ ?]]]]]]]]; by auto.
  - intros [[-> ->] | [[-> ->] | [[-> ->] | [-> ->]]]]; by auto 10.
Qed.

Lemma weight_values :
  weight "EUR/USD" = literal (-0.576)%Q /\ weight "USD/JPY" = literal 0.136%Q /\
  weight "GBP/USD" = literal (-0.119)%Q /\ weight "USD/CAD" = literal 0.091%Q.
Proof. unfold weight, weights. by simplify_map_eq. Qed.

Lemma proxy_point_all eur jpy gbp cad i e y g c :
  eur !! i = Some e -> jpy !! i = Some y -> gbp !! i = Some g -> cad !! i = Some c ->
  proxy_point (all_pairs eur jpy gbp cad) i =
  Return {| Dxy.date := formatDate (TwelveData.datetime e);
            Dxy.dxy := toFixed (proxy_value e y g c) 1 |}.
Proof.
  intros He Hy Hg Hc.
  destruct weight_values as (Hw1 & Hw2 & Hw3 & Hw4).
  unfold proxy_point, weightedSum, pairs, add_pair, proxy_value. simpl.
  rewrite (proj2 (all_pairs_lookup eur jpy gbp cad "EUR/USD" eur)) by auto.
  rewrite (proj2 (all_pairs_lookup eur jpy gbp cad "USD/JPY" jpy)) by auto.
  rewrite (proj2 (all_pairs_lookup eur jpy gbp cad "GBP/USD" gbp)) by auto.
  rewrite (proj2 (all_pairs_lookup eur jpy gbp cad "USD/CAD" cad)) by auto 10.
  simpl. rewrite He, Hy, Hg, Hc. simpl. by rewrite Hw1, Hw2, Hw3, Hw4.
Qed.

Lemma proxy_length_all eur jpy gbp cad :
  proxy_length (all_pairs eur jpy gbp cad) =
  Finite (((length eur `min` length jpy) `min` length gbp) `min` length cad).
Proof.
  apply proxy_length_Finite. setoid_rewrite all_pairs_lookup. split.
  - destruct (Nat.min_spec ((length eur `min` length jpy) `min` length gbp) (length cad))
      as [[_ ->] | [_ ->]]; [| by eauto 10].
    destruct (Nat.min_spec (length eur `min` length jpy) (length gbp))
      as [[_ ->] | [_ ->]]; [| by eauto 10].
    destruct (Nat.min_spec (length eur) (length jpy)) as [[_ ->] | [_ ->]]; by eauto 10.
  - intros k values [[_ ->] | [[_ ->] | [[_ ->] | [_ ->]]]]; lia.
Qed.

(** The failed primary request wrote nothing. *)
Lemma updateDollarIndex_primary_throw s e s1 :
  updateDollarIndex_primary w s = (Throw e, s1) -> files s1 = files s.
Proof.
  unfold updateDollarIndex_primary. unfold_M.
  destruct (twelvedata w "DXY") as [reason|r]; [by intros [= _ <-] |].
  destruct (ok r); simpl; [| by intros [= _ <-]].
  destruct (json_body r) as [data|]; simpl; [| by intros [= _ <-]].
  case_bool_decide; [by intros [= _ <-] |].
  destruct (TwelveData.values data) as [values|]; [| by intros [= _ <-]].
  destruct (values !! 0%nat); [done | by intros [= _ <-]].
Qed.

(** C2.  When the direct index request has failed: if the four pair
    requests each give a values array that is not empty, the proxy saved
    has as many points as the shortest array (180 when all four have 180),
    and its point for position [i] of the arrays carries
    [100 + Σ weight_i * rate_i] over the four closes at [i], to one decimal,
    with the weights -0.576, 0.136, -0.119 and 0.091; if a pair request
    yields no data, the index task fails and writes nothing. *)
Theorem C2_index_proxy (s s1 : State) (e : exn) :
  updateDollarIndex_primary w s = (Throw e, s1) ->
  (forall eur jpy gbp cad,
     has_values (twelvedata w "EUR/USD") eur -> has_values (twelvedata w "USD/JPY") jpy ->
     has_values (twelvedata w "GBP/USD") gbp -> has_values (twelvedata w "USD/CAD") cad ->
     eur <> [] -> jpy <> [] -> gbp <> [] -> cad <> [] ->
     let n := ((length eur `min` length jpy) `min` length gbp) `min` length cad in
     exists dxyData s',
       updateDollarIndex w s = (Return (Some dxyData), s') /\
       files s' !! "dollar-index.json" = Some (DxyFile dxyData) /\
       Dxy.source dxyData = "Calculated DXY Proxy" /\
       length (Dxy.data dxyData) = n /\
       (length eur = 180 -> length jpy = 180 -> length gbp = 180 -> length cad = 180 ->
        length (Dxy.data dxyData) = 180) /\
       forall i, i < n ->
         exists pe py pg pc,
           eur !! i = Some pe /\ jpy !! i = Some py /\
           gbp !! i = Some pg /\ cad !! i = Some pc /\
           Dxy.data dxyData !! (n - 1 - i) =
           Some {| Dxy.date := formatDate (TwelveData.datetime pe);
                   Dxy.dxy := toFixed (proxy_value pe py pg pc) 1 |}) /\
  (forall pair, pair ∈ pairs -> no_data (twelvedata w pair) ->
     exists s', updateDollarIndex w s = (Return None, s') /\ files s' = files s).
Proof.
  intros Hprimary. split.
  - intros eur jpy gbp cad Heur Hjpy Hgbp Hcad Heur0 Hjpy0 Hgbp0 Hcad0 n.
    set (dummy := {| Dxy.date := ""; Dxy.dxy := "" |}).
    set (point := fun i => default dummy
           (pe ← eur !! i; py ← jpy !! i; pg ← gbp !! i; pc ← cad !! i;
            Some {| Dxy.date := formatDate (TwelveData.datetime pe);
                    Dxy.dxy := toFixed (proxy_value pe py pg pc) 1 |})).
    assert (0 < n) as Hn
      by (destruct eur, jpy, gbp, cad; try done; subst n; simpl; lia).
    assert (forall i, i < n -> exists pe py pg pc,
              eur !! i = Some pe /\ jpy !! i = Some py /\
              gbp !! i = Some pg /\ cad !! i = Some pc /\
              point i = {| Dxy.date := formatDate (TwelveData.datetime pe);
                           Dxy.dxy := toFixed (proxy_value pe py pg pc) 1 |} /\
              proxy_point (all_pairs eur jpy gbp cad) i = Return (point i)) as Hpoint.
    { intros i Hi.
      destruct (lookup_lt_is_Some_2 eur i) as [pe Hpe]; [lia |].
      destruct (lookup_lt_is_Some_2 jpy i) as [py Hpy]; [lia |].
      destruct (lookup_lt_is_Some_2 gbp i) as [pg Hpg]; [lia |].
      destruct (lookup_lt_is_Some_2 cad i) as [pc Hpc]; [lia |].
      exists pe, py, pg, pc. do 4 (split; [done |]).
      assert (point i = {| Dxy.date := formatDate (TwelveData.datetime pe);
                           Dxy.dxy := toFixed (proxy_value pe py pg pc) 1 |}) as ->
        by (subst point; simpl; by rewrite Hpe, Hpy, Hpg, Hpc).
      split; [done |]. by apply proxy_point_all. }
    assert (dxyProxy (all_pairs eur jpy gbp cad) = Return (point <$> seq 0 n)) as Hproxy.
    { unfold dxyProxy, proxy_fuel. rewrite proxy_length_all. fold n.
      rewrite (proxy_loop_points _ n point n 0 []); [done | | done].
      intros j Hj. destruct (Hpoint j) as (? & ? & ? & ? & _ & _ & _ & _ & _ & ->); [lia | done]. }
    assert ((point <$> seq 0 n) !! 0%nat = Some (point 0)) as Hnewest
      by (by rewrite list_lookup_fmap, lookup_seq_lt by lia).
    eexists _, _. split.
    { unfold updateDollarIndex. rewrite (try_catch_throw _ _ _ _ _ Hprimary).
      apply try_catch_return. unfold updateDollarIndex_fallback.
      unfold mbind at 1. unfold M_bind at 1.
      rewrite (fetch_pairs_all _ _ _ _ _ Heur Hjpy Hgbp Hcad).
      unfold_M. rewrite Hproxy, Hnewest. reflexivity. }
    cbn [files Dxy.source Dxy.data].
    split; [by rewrite lookup_insert_eq |]. split; [done |].
    assert (length (reverse (point <$> seq 0 n)) = n) as Hlen
      by (by rewrite length_reverse, length_fmap, length_seq).
    split; [exact Hlen |]. split.
    { intros H1 H2 H3 H4. rewrite Hlen. lia. }
    intros i Hi. destruct (Hpoint i Hi) as (pe & py & pg & pc & Hpe & Hpy & Hpg & Hpc & Hpt & _).
    exists pe, py, pg, pc. do 4 (split; [done |]). rewrite <- Hpt.
    rewrite reverse_lookup by (rewrite length_fmap, length_seq; lia).
    rewrite length_fmap, length_seq, list_lookup_fmap.
    rewrite lookup_seq_lt by lia. simpl. f_equal. f_equal. lia.
  - intros pair Hin Hno.
    destruct (fetch_pairs_missing pairs ∅ s1 pair Hno) as (o & s2 & Hfetch & Hfiles & Ho);
      [done |].
    exists s2. split; [| by rewrite Hfiles, (updateDollarIndex_primary_throw _ _ _ Hprimary)].
    unfold updateDollarIndex. rewrite (try_catch_throw _ _ _ _ _ Hprimary).
    unfold try_catch, updateDollarIndex_fallback.
    unfold mbind at 1. unfold M_bind at 1. rewrite Hfetch.
    destruct o as [pairData|e'|]; [| done | done].
    unfold_M. destruct (dxyProxy_missing pairData pair Hin Ho) as [-> | [e' ->]]; done.
Qed.

(** ** 4. Geopolitical events *)

Lemma ends_updateGeopoliticalEvents_body apiKey : ends (updateGeopoliticalEvents_body w apiKey).
Proof. unfold updateGeopoliticalEvents_body. ends_steps. Qed.

Lemma returns_updateGeopoliticalEvents : returns (updateGeopoliticalEvents w).
Proof.
  unfold updateGeopoliticalEvents. destruct (truthy (NEWS_API_KEY w)); [| apply returns_ret].
  apply returns_try_catch; [apply ends_updateGeopoliticalEvents_body |].
  intros _. apply returns_ret.
Qed.

Lemma updateGeopoliticalEvents_success s r data articles :
  truthy (NEWS_API_KEY w) = true ->
  newsapi w = Resolved r -> json_body r = Some data ->
  NewsApi.status data <> Some "error" -> NewsApi.articles data = Some articles ->
  let geoData :=
    {| Geo.lastUpdated := now w;
       Geo.source := "NewsAPI";
       Geo.events := take 15 (to_event <$> articles) |} in
  updateGeopoliticalEvents w s =
    (Return (Some geoData),
     saved "geopolitical-events.json" (GeoFile geoData) [news_url (key (NEWS_API_KEY w))] 0 s).
Proof.
  intros Hkey Hfetch Hjson Hstatus Harticles geoData.
  unfold updateGeopoliticalEvents. rewrite Hkey. apply try_catch_return.
  unfold updateGeopoliticalEvents_body, saved. unfold_M.
  rewrite Hfetch. simpl. rewrite Hjson. simpl.
  rewrite bool_decide_eq_false_2 by done. rewrite Harticles. simpl.
  by rewrite Nat.add_0_r.
Qed.

Lemma updateGeopoliticalEvents_inv s geoData s' :
  updateGeopoliticalEvents w s = (Return (Some geoData), s') ->
  exists r data articles,
    truthy (NEWS_API_KEY w) = true /\
    newsapi w = Resolved r /\ json_body r = Some data /\
    NewsApi.status data <> Some "error" /\ NewsApi.articles data = Some articles /\
    geoData = {| Geo.lastUpdated := now w;
                 Geo.source := "NewsAPI";
                 Geo.events := take 15 (to_event <$> articles) |}.
Proof.
  unfold updateGeopoliticalEvents, try_catch, updateGeopoliticalEvents_body. unfold_M.
  intros Hrun. repeat (case_match; simplify_eq/=).
  eexists _, _, _. repeat split; try done.
  by eapply bool_decide_eq_false_1.
Qed.

(** C9.  A successful news response is saved as its first 15 classified
    articles, in the order of the response: at most 15 events, whatever the
    number of articles. *)
Theorem C9_events_capped_at_15 (s : State) r data articles :
  truthy (NEWS_API_KEY w) = true ->
  newsapi w = Resolved r -> json_body r = Some data ->
  NewsApi.status data <> Some "error" -> NewsApi.articles data = Some articles ->
  exists geoData s',
    updateGeopoliticalEvents w s = (Return (Some geoData), s') /\
    files s' !! "geopolitical-events.json" = Some (GeoFile geoData) /\
    Geo.events geoData = take 15 (to_event <$> articles) /\
    length (Geo.events geoData) = 15 `min` length articles /\
    length (Geo.events geoData) <= 15 /\
    forall i, i < 15 -> Geo.events geoData !! i = to_event <$> articles !! i.
Proof.
  intros Hkey Hfetch Hjson Hstatus Harticles.
  eexists _, _. split; [by eapply updateGeopoliticalEvents_success |].
  cbn [saved files Geo.events].
  split; [by rewrite lookup_insert_eq |]. split; [done |].
  assert (length (take 15 (to_event <$> articles)) = 15 `min` length articles) as Hlen
    by (by rewrite length_take, length_fmap).
  split; [done |]. split; [lia |].
  intros i Hi. by rewrite lookup_take_lt, list_lookup_fmap by done.
Qed.

(** ** Main *)

Lemma successCount_zero results :
  successCount results = 0 <->
  goldPrice results = None /\ fedPolicy results = None /\
  dollarIndex results = None /\ geopolitical results = None.
Proof.
  destruct results as [[g|] [f|] [d|] [e|]]; simpl; vm_compute; intuition congruence.
Qed.

(** [main] runs the four tasks in turn, 2000 ms apart, and asks for exit
    code 1 exactly when it counts no success. *)
Lemma main_run s :
  exists gold fed dxy geo s1 s2 s3 s4,
    updateGoldPrice w s = (Return gold, s1) /\
    updateFedData w (later 2000 s1) = (Return fed, s2) /\
    updateDollarIndex w (later 2000 s2) = (Return dxy, s3) /\
    updateGeopoliticalEvents w (later 2000 s3) = (Return geo, s4) /\
    let results :=
      {| goldPrice := gold; fedPolicy := fed; dollarIndex := dxy; geopolitical := geo |} in
    main w s =
      (Return (results, if (successCount results =? 0)%nat then Some 1%nat else None), s4).
Proof.
  destruct (returns_updateGoldPrice s) as (gold & s1 & Hgold).
  destruct (returns_updateFedData (later 2000 s1)) as (fed & s2 & Hfed).
  destruct (returns_updateDollarIndex (later 2000 s2)) as (dxy & s3 & Hdxy).
  destruct (returns_updateGeopoliticalEvents (later 2000 s3)) as (geo & s4 & Hgeo).
  exists gold, fed, dxy, geo, s1, s2, s3, s4. do 4 (split; [done |]).
  unfold later in *. unfold main. unfold mbind, M_bind, delay in *. simpl in *.
  rewrite Hgold, Hfed, Hdxy, Hgeo. by destruct (successCount _ =? 0)%nat.
Qed.

(** C3.  [main] always comes to its end; the process exits with code 1
    when all four tasks gave no record set and only then, and with code 0
    as soon as one of them gave one. *)
Theorem C3_exit_code (s : State) :
  exists results code s',
    main w s = (Return (results, code), s') /\
    (exists s1 s2 s3,
       updateGoldPrice w s = (Return (goldPrice results), s1) /\
       updateFedData w (later 2000 s1) = (Return (fedPolicy results), s2) /\
       updateDollarIndex w (later 2000 s2) = (Return (dollarIndex results), s3) /\
       updateGeopoliticalEvents w (later 2000 s3) = (Return (geopolitical results), s')) /\
    (exit_code w s = Some 0%nat \/ exit_code w s = Some 1%nat) /\
    (exit_code w s = Some 1%nat <->
       goldPrice results = None /\ fedPolicy results = None /\
       dollarIndex results = None /\ geopolitical results = None) /\
    (exit_code w s = Some 0%nat <->
       is_Some (goldPrice results) \/ is_Some (fedPolicy results) \/
       is_Some (dollarIndex results) \/ is_Some (geopolitical results)).
Proof.
  destruct (main_run s) as (gold & fed & dxy & geo & s1 & s2 & s3 & s4 &
                            Hgold & Hfed & Hdxy & Hgeo & Hmain).
  eexists _, _, s4. split; [exact Hmain |].
  split; [by exists s1, s2, s3 |].
  unfold exit_code. rewrite Hmain.
  set (results := {| goldPrice := gold; fedPolicy := fed;
                     dollarIndex := dxy; geopolitical := geo |}).
  pose proof (successCount_zero results) as Hzero.
  destruct (Nat.eqb_spec (successCount results) 0) as [Hcount | Hcount].
  - apply Hzero in Hcount as (Hg & Hf & Hd & He).
    split; [by right |]. split; [done |].
    rewrite Hg, Hf, Hd, He. split; [done |].
    intros [[? [=]] | [[? [=]] | [[? [=]] | [? [=]]]]].
  - split; [by left |]. split.
    + split; [done | intros Hnone; by apply Hzero in Hnone].
    + split; [| done]. intros _.
      destruct (goldPrice results) eqn:?; [by eauto |].
      destruct (fedPolicy results) eqn:?; [by eauto |].
      destruct (dollarIndex results) eqn:?; [by eauto |].
      destruct (geopolitical results) eqn:?; [by eauto 6 |].
      by destruct Hcount; apply Hzero.
Qed.

(** C8.  Without a news key the events task ends at once with the failure
    outcome: no request goes out, nothing is written or waited for, and no
    exception is raised.  The three other tasks do not read the news key or
    the news answer, and [main] ends in the state the index task left, 2000
    ms later, with the exit code that the three other results give. *)
Theorem C8_news_key_absent (s : State) :
  truthy (NEWS_API_KEY w) = false ->
  updateGeopoliticalEvents w s = (Return None, s) /\
  (forall (newsKey : option string) (answer : fetched NewsApi.body),
     let w' :=
       {| ALPHA_VANTAGE_KEY := ALPHA_VANTAGE_KEY w; FRED_KEY := FRED_KEY w;
          TWELVE_DATA_KEY := TWELVE_DATA_KEY w; NEWS_API_KEY := newsKey;
          now := now w; twelvedata := twelvedata w; alphavantage := alphavantage w;
          fred := fred w; newsapi := answer |} in
     updateGoldPrice w' = updateGoldPrice w /\
     updateFedData w' = updateFedData w /\
     updateDollarIndex w' = updateDollarIndex w) /\
  exists gold fed dxy s1 s2 s3,
    updateGoldPrice w s = (Return gold, s1) /\
    updateFedData w (later 2000 s1) = (Return fed, s2) /\
    updateDollarIndex w (later 2000 s2) = (Return dxy, s3) /\
    main w s =
      (Return ({| goldPrice := gold; fedPolicy := fed;
                  dollarIndex := dxy; geopolitical := None |},
               match gold, fed, dxy with
               | None, None, None => Some 1%nat
               | _, _, _ => None
               end),
       later 2000 s3).
Proof.
  intros Hkey.
  assert (forall s0, updateGeopoliticalEvents w s0 = (Return None, s0)) as Hskip
    by (intros s0; unfold updateGeopoliticalEvents; by rewrite Hkey).
  split; [done |]. split; [done |].
  destruct (main_run s) as (gold & fed & dxy & geo & s1 & s2 & s3 & s4 &
                            Hgold & Hfed & Hdxy & Hgeo & Hmain).
  rewrite Hskip in Hgeo. injection Hgeo as <- <-.
  exists gold, fed, dxy, s1, s2, s3. do 3 (split; [done |]).
  rewrite Hmain. by destruct gold, fed, dxy.
Qed.

(** ** Degenerate payloads *)

Lemma updateGoldPrice_primary_throw s e s1 :
  updateGoldPrice_primary w s = (Throw e, s1) -> files s1 = files s.
Proof.
  unfold updateGoldPrice_primary. unfold_M.
  destruct (twelvedata w "XAU/USD") as [reason|r]; [by intros [= _ <-] |].
  destruct (ok r); simpl; [| by intros [= _ <-]].
  destruct (json_body r) as [data|]; simpl; [| by intros [= _ <-]].
  case_bool_decide; [by intros [= _ <-] |].
  destruct (TwelveData.values data) as [values|]; [| by intros [= _ <-]].
  destruct (values !! 0%nat); [done | by intros [= _ <-]].
Qed.

(** C10.  An empty time series from the price fallback, and rate and yield
    series of which no pair is complete, make their task give the failure
    outcome: the TypeError of the lookup of the last element is caught in
    the task, nothing is written, and [main] goes on to its end with the
    exit code that its results give. *)
Theorem C10_degenerate_payloads_caught (s : State) :
  (forall e s1 r fallbackData,
     updateGoldPrice_primary w s = (Throw e, s1) ->
     alphavantage w = Resolved r -> json_body r = Some fallbackData ->
     AlphaVantage.time_series fallbackData = Some [] ->
     exists s', updateGoldPrice w s = (Return None, s') /\ files s' = files s) /\
  (forall r1 dffData r2 realYieldData,
     fred w "DFF" = Resolved r1 -> json_body r1 = Some dffData ->
     fred w "DFII10" = Resolved r2 -> json_body r2 = Some realYieldData ->
     truthy (Fred.error_message dffData) = false ->
     truthy (Fred.error_message realYieldData) = false ->
     combinedData dffData realYieldData = Return [] ->
     exists s', updateFedData w s = (Return None, s') /\ files s' = files s) /\
  (forall s0, exists results code s',
     main w s0 = (Return (results, code), s') /\
     (exists s1 s2 s3,
        updateGoldPrice w s0 = (Return (goldPrice results), s1) /\
        updateFedData w (later 2000 s1) = (Return (fedPolicy results), s2) /\
        updateDollarIndex w (later 2000 s2) = (Return (dollarIndex results), s3) /\
        updateGeopoliticalEvents w (later 2000 s3) = (Return (geopolitical results), s')) /\
     code = if (successCount results =? 0)%nat then Some 1%nat else None).
Proof.
  split; [| split].
  - intros e s1 r fallbackData Hprimary Hfetch Hjson Hseries. eexists. split.
    + by eapply updateGoldPrice_empty_series.
    + simpl. by eapply updateGoldPrice_primary_throw.
  - intros r1 dffData r2 realYieldData Hf1 Hj1 Hf2 Hj2 He1 He2 Hcombined. eexists. split.
    + by eapply updateFedData_all_filtered.
    + done.
  - intros s0.
    destruct (main_run s0) as (gold & fed & dxy & geo & s1 & s2 & s3 & s4 &
                               Hgold & Hfed & Hdxy & Hgeo & Hmain).
    eexists _, _, s4. split; [exact Hmain |]. split; [by exists s1, s2, s3 | done].
Qed.

(** ** Dates *)

Lemma formatDate_shape dateString y m d :
  new_Date dateString = Some (y, m, d) ->
  m < 12 -> 1 <= d <= 31 -> (1000 <= y <= 9999)%Z ->
  exists name,
    months !! m = Some name /\
    formatDate dateString = name +:+ " " +:+ pretty d +:+ ", " +:+ pretty y /\
    month_day_year (formatDate dateString).
Proof.
  intros Hdate Hm Hd Hy.
  destruct (lookup_lt_is_Some_2 months m) as [name Hname]; [done |].
  assert (formatDate dateString = name +:+ " " +:+ pretty d +:+ ", " +:+ pretty y) as Hformat
    by (unfold formatDate; by rewrite Hdate, Hname).
  exists name. split; [done |]. split; [done |]. rewrite Hformat.
  exists name, d, y. split; [by eapply list_elem_of_lookup_2 | done].
Qed.

Lemma month_three_letters name : name ∈ months -> String.length name = 3.
Proof.
  unfold months. intros Hin.
  repeat (apply elem_of_cons in Hin as [-> | Hin]; [done |]).
  by apply elem_of_nil in Hin.
Qed.

Lemma combine_from_dates dff idx realYield mapped :
  combine_from dff idx realYield = Return mapped ->
  Forall (fun p => formatted (FedPolicy.date p)) mapped.
Proof.
  revert idx realYield mapped.
  induction dff as [|obs rest IH]; intros idx realYield mapped; simpl.
  - by intros [= <-].
  - destruct realYield as [observations|]; [| done]. simpl.
    destruct (combine_from rest (S idx) (Some (reverse observations))) as [ds| |] eqn:Hrest;
      [| done | done].
    intros [= <-]. constructor; [by eexists | by eapply IH].
Qed.

Lemma proxy_loop_dates pairData fuel length i dxyProxy points :
  proxy_loop pairData fuel length i dxyProxy = Return points ->
  Forall (fun p => formatted (Dxy.date p)) dxyProxy ->
  Forall (fun p => formatted (Dxy.date p)) points.
Proof.
  revert i dxyProxy. induction fuel as [|fuel IH]; intros i dxyProxy; simpl.
  - destruct (below i length); [done | by intros [= <-]].
  - destruct (below i length); [| by intros [= <-]].
    destruct (proxy_point pairData i) as [p| |] eqn:Hpoint; [| done | done].
    simpl. intros Hloop Hall. eapply IH; [exact Hloop |].
    apply Forall_app. split; [done |]. constructor; [| done].
    unfold proxy_point, mbind, outcome_bind, defined in Hpoint.
    repeat (case_match; simplify_eq/=). injection Hpoint as <-. by eexists.
Qed.

Ltac run_cases H :=
  unfold try_catch in H; unfold_M;
  repeat (case_match; simplify_eq/=).

Lemma updateGoldPrice_dates s goldData s' :
  updateGoldPrice w s = (Return (Some goldData), s') ->
  Forall (fun p => formatted (Gold.date p)) (Gold.history goldData).
Proof.
  unfold updateGoldPrice, updateGoldPrice_primary, updateGoldPrice_fallback.
  intros Hrun. run_cases Hrun;
    apply Forall_fmap, Forall_forall; intros d _; by eexists.
Qed.

Lemma updateFedData_dates s fedData s' :
  updateFedData w s = (Return (Some fedData), s') ->
  Forall (fun p => formatted (FedPolicy.date p)) (FedPolicy.data fedData).
Proof.
  unfold updateFedData, updateFedData_body, combinedData.
  intros Hrun. run_cases Hrun.
  unfold mbind, outcome_bind, mret, outcome_ret in *. repeat (case_match; simplify_eq/=).
  match goal with Hm : combine_from _ _ _ = Return _ |- _ =>
    apply combine_from_dates in Hm; rewrite Forall_forall in Hm; rename Hm into Hmapped end.
  apply Forall_drop, Forall_forall. intros p Hp.
  apply list_elem_of_In, filter_In in Hp as [Hp _].
  by apply Hmapped, list_elem_of_In.
Qed.

Lemma updateDollarIndex_dates s dxyData s' :
  updateDollarIndex w s = (Return (Some dxyData), s') ->
  Forall (fun p => formatted (Dxy.date p)) (Dxy.data dxyData).
Proof.
  unfold updateDollarIndex, updateDollarIndex_primary, updateDollarIndex_fallback.
  intros Hrun. run_cases Hrun; unfold dxyProxy in *.
  all: first
    [ apply Forall_reverse; eapply proxy_loop_dates; [eassumption | constructor]
    | apply Forall_fmap, Forall_forall; intros d _; by eexists ].
Qed.

Lemma updateGoldPrice_saved s goldData s' :
  updateGoldPrice w s = (Return (Some goldData), s') ->
  files s' !! "gold-price.json" = Some (GoldFile goldData).
Proof.
  unfold updateGoldPrice, updateGoldPrice_primary, updateGoldPrice_fallback.
  intros Hrun. run_cases Hrun; by rewrite lookup_insert_eq.
Qed.

Lemma updateFedData_saved s fedData s' :
  updateFedData w s = (Return (Some fedData), s') ->
  files s' !! "fed-policy.json" = Some (FedFile fedData).
Proof.
  unfold updateFedData, updateFedData_body.
  intros Hrun. run_cases Hrun; by rewrite lookup_insert_eq.
Qed.

Lemma updateDollarIndex_saved s dxyData s' :
  updateDollarIndex w s = (Return (Some dxyData), s') ->
  files s' !! "dollar-index.json" = Some (DxyFile dxyData).
Proof.
  unfold updateDollarIndex, updateDollarIndex_primary, updateDollarIndex_fallback.
  intros Hrun. run_cases Hrun; by rewrite lookup_insert_eq.
Qed.

(** *** Where the saved dates come from *)

Lemma updateGoldPrice_inv s goldData s' :
  updateGoldPrice w s = (Return (Some goldData), s') ->
  (exists r data values,
     twelvedata w "XAU/USD" = Resolved r /\ json_body r = Some data /\
     TwelveData.values data = Some values /\
     Gold.history goldData = gold_point <$> reverse (take 180 values)) \/
  (exists r fallbackData timeSeries,
     alphavantage w = Resolved r /\ json_body r = Some fallbackData /\
     AlphaVantage.time_series fallbackData = Some timeSeries /\
     Gold.history goldData = gold_fallback_point <$> reverse (take 180 timeSeries)).
Proof.
  unfold updateGoldPrice, updateGoldPrice_primary, updateGoldPrice_fallback.
  intros Hrun. run_cases Hrun.
  all: first [ left; by eexists _, _, _ | right; by eexists _, _, _ ].
Qed.

Lemma combine_from_date_fields dff idx realYield mapped :
  combine_from dff idx realYield = Return mapped ->
  FedPolicy.date <$> mapped = (fun obs => formatDate (Fred.date obs)) <$> dff.
Proof.
  revert idx realYield mapped.
  induction dff as [|obs rest IH]; intros idx realYield mapped; simpl.
  - by intros [= <-].
  - destruct realYield as [observations|]; [| done]. simpl.
    destruct (combine_from rest (S idx) (Some (reverse observations))) as [ds| |] eqn:Hrest;
      [| done | done].
    intros [= <-]. simpl. f_equal. by eapply IH.
Qed.

Lemma filter_sublist {A : Type} (f : A -> bool) (l : list A) : List.filter f l `sublist_of` l.
Proof.
  induction l as [|x l IH]; simpl; [done |].
  destruct (f x); by constructor.
Qed.

Lemma updateFedData_inv s fedData s' :
  updateFedData w s = (Return (Some fedData), s') ->
  exists r dffData observations mapped,
    fred w "DFF" = Resolved r /\ json_body r = Some dffData /\
    Fred.observations dffData = Some observations /\
    FedPolicy.date <$> mapped =
      (fun obs => formatDate (Fred.date obs)) <$> reverse observations /\
    FedPolicy.data fedData = slice_last 180 (List.filter complete mapped).
Proof.
  unfold updateFedData, updateFedData_body, combinedData.
  intros Hrun. run_cases Hrun.
  unfold mbind, outcome_bind, mret, outcome_ret in *. repeat (case_match; simplify_eq/=).
  match goal with Hm : combine_from _ _ _ = Return _ |- _ =>
    apply combine_from_date_fields in Hm end.
  by eexists _, _, _, _.
Qed.

(** A pair is in the pair data with the values of its answer. *)
Lemma fetch_pairs_lookup todo pairData s pairData' s' symbol values :
  fetch_pairs w todo pairData s = (Return pairData', s') ->
  pairData' !! symbol = Some values ->
  has_values (twelvedata w symbol) values \/ pairData !! symbol = Some values.
Proof.
  revert pairData s. induction todo as [|first rest IH]; intros pairData s; simpl.
  - intros [= <- <-]. by right.
  - unfold_M. destruct (twelvedata w first) as [reason|r] eqn:Hanswer; [done |].
    destruct (json_body r) as [b|] eqn:Hbody; simpl; [| done].
    intros Hrun Hlookup. destruct (IH _ _ Hrun Hlookup) as [Hvalues | Hbefore]; [by left |].
    destruct (TwelveData.values b) as [values'|] eqn:Hvalues; [| by right].
    apply lookup_insert_Some in Hbefore as [[<- <-] | [_ Hbefore]]; [| by right].
    left. by exists r, b.
Qed.

(** The dates of the proxy are the dates of the first pair, position by
    position. *)
Lemma proxy_loop_date_fields pairData fuel length i dxyProxy points :
  proxy_loop pairData fuel length i dxyProxy = Return points ->
  exists turns,
    points = (dxyProxy ++ turns)%list /\
    forall j p, turns !! j = Some p ->
      exists values d,
        pairData !! "EUR/USD" = Some values /\ values !! (i + j) = Some d /\
        Dxy.date p = formatDate (TwelveData.datetime d).
Proof.
  revert i dxyProxy. induction fuel as [|fuel IH]; intros i dxyProxy; simpl.
  - destruct (below i length); [done |]. intros [= <-]. exists []. by rewrite app_nil_r.
  - destruct (below i length); [| intros [= <-]; exists []; by rewrite app_nil_r].
    destruct (proxy_point pairData i) as [p| |] eqn:Hpoint; [| done | done].
    simpl. intros Hloop. destruct (IH _ _ Hloop) as (turns & -> & Hturns).
    exists (p :: turns). split; [by rewrite <- (assoc_L (++)) |].
    intros [|j] q Hq.
    + injection Hq as <-. rewrite Nat.add_0_r.
      unfold proxy_point, mbind, outcome_bind, defined in Hpoint.
      repeat (case_match; simplify_eq/=). injection Hpoint as <-. by eexists _, _.
    + destruct (Hturns j q Hq) as (values & d & Hvalues & Hd & Hdate).
      exists values, d. split; [done |]. split; [| done].
      by replace (i + S j) with (S i + j) by lia.
Qed.

Lemma updateDollarIndex_source s dxyData s' :
  updateDollarIndex w s = (Return (Some dxyData), s') ->
  (exists r data values,
     twelvedata w "DXY" = Resolved r /\ json_body r = Some data /\
     TwelveData.values data = Some values /\
     Dxy.data dxyData = dxy_point <$> reverse (take 180 values)) \/
  (exists s1 pairData s2 points,
     fetch_pairs w pairs ∅ s1 = (Return pairData, s2) /\
     dxyProxy pairData = Return points /\ points <> [] /\
     Dxy.data dxyData = reverse points).
Proof.
  unfold updateDollarIndex, try_catch.
  destruct (updateDollarIndex_primary w s) as [o s1] eqn:Hprimary.
  destruct o as [r|e|]; [| | done].
  - intros [= -> ->]. left.
    unfold updateDollarIndex_primary in Hprimary. unfold_M.
    repeat (case_match; simplify_eq/=). by eexists _, _, _.
  - unfold updateDollarIndex_fallback. unfold mbind at 1. unfold M_bind at 1.
    destruct (fetch_pairs w pairs ∅ s1) as [[pairData|e'|] s2] eqn:Hfetch; [| done | done].
    unfold_M. intros Hrun. right.
    destruct (dxyProxy pairData) as [points| |] eqn:Hproxy; [| done | done].
    destruct points as [|p points]; [done |]. simpl in Hrun. injection Hrun as <- _.
    by eexists _, _, _, _.
Qed.

Lemma updateDollarIndex_proxy_dates pairData s1 s2 points :
  fetch_pairs w pairs ∅ s1 = (Return pairData, s2) ->
  dxyProxy pairData = Return points -> points <> [] ->
  exists eur,
    has_values (twelvedata w "EUR/USD") eur /\
    Dxy.date <$> reverse points =
      formatDate <$> (TwelveData.datetime <$> reverse (take (length points) eur)).
Proof.
  intros Hfetch Hproxy Hne. unfold dxyProxy in Hproxy.
  apply proxy_loop_date_fields in Hproxy as (turns & Hpoints & Hturns).
  simpl in Hpoints. subst turns.
  destruct points as [|p0 points]; [done |].
  destruct (Hturns 0 p0 eq_refl) as (eur & d0 & Heur & _ & _).
  exists eur. split.
  - destruct (fetch_pairs_lookup _ _ _ _ _ _ _ Hfetch Heur) as [Hvalues | Hempty]; [done |].
    by rewrite lookup_empty in Hempty.
  - rewrite !fmap_reverse. f_equal. rewrite <- list_fmap_compose.
    apply list_eq. intros j. rewrite !list_lookup_fmap.
    destruct (decide (j < length (p0 :: points))) as [Hj | Hj].
    + destruct (lookup_lt_is_Some_2 (p0 :: points) j Hj) as [p Hp].
      destruct (Hturns j p Hp) as (eur' & d & Heur' & Hd & Hdate).
      rewrite Heur in Heur'. injection Heur' as <-.
      simpl in Hd. rewrite Hp, lookup_take_lt, Hd by done. simpl. by rewrite Hdate.
    + rewrite lookup_ge_None_2 by lia.
      by rewrite lookup_take_ge by lia.
Qed.

(** C7, as the script has it.  In the price, policy and index record sets
    every saved date is [formatDate] of the date field of the provider's
    point at the same position: of [datetime] for Twelve Data, of the key
    of the day for Alpha Vantage, of [date] of the rate observation for
    FRED, of [datetime] of the first pair for the proxy.  [formatDate]
    renders a string that [new Date] reads as a valid date (month index
    below 12, day 1 to 31, year 1000 to 9999) as the 3-letter month, the
    day, a comma and the 4-digit year, time of day left out.  The dates of
    the events are not formatted: each is the [publishedAt] text up to its
    first [T]. *)
Theorem C7_dates_formatted_except_events (s : State) :
  (forall dateString y m d,
     new_Date dateString = Some (y, m, d) ->
     m < 12 -> 1 <= d <= 31 -> (1000 <= y <= 9999)%Z ->
     exists name,
       months !! m = Some name /\ String.length name = 3 /\
       formatDate dateString = name +:+ " " +:+ pretty d +:+ ", " +:+ pretty y /\
       month_day_year (formatDate dateString)) /\
  (forall goldData s',
     updateGoldPrice w s = (Return (Some goldData), s') ->
     files s' !! "gold-price.json" = Some (GoldFile goldData) /\
     ((exists r data values,
         twelvedata w "XAU/USD" = Resolved r /\ json_body r = Some data /\
         TwelveData.values data = Some values /\
         Gold.date <$> Gold.history goldData =
           formatDate <$> (TwelveData.datetime <$> reverse (take 180 values))) \/
      (exists r fallbackData timeSeries,
         alphavantage w = Resolved r /\ json_body r = Some fallbackData /\
         AlphaVantage.time_series fallbackData = Some timeSeries /\
         Gold.date <$> Gold.history goldData =
           formatDate <$> (fst <$> reverse (take 180 timeSeries))))) /\
  (forall fedData s',
     updateFedData w s = (Return (Some fedData), s') ->
     files s' !! "fed-policy.json" = Some (FedFile fedData) /\
     exists r dffData observations mapped,
       fred w "DFF" = Resolved r /\ json_body r = Some dffData /\
       Fred.observations dffData = Some observations /\
       FedPolicy.date <$> mapped = formatDate <$> (Fred.date <$> reverse observations) /\
       FedPolicy.data fedData = slice_last 180 (List.filter complete mapped)) /\
  (forall dxyData s',
     updateDollarIndex w s = (Return (Some dxyData), s') ->
     files s' !! "dollar-index.json" = Some (DxyFile dxyData) /\
     ((exists r data values,
         twelvedata w "DXY" = Resolved r /\ json_body r = Some data /\
         TwelveData.values data = Some values /\
         Dxy.date <$> Dxy.data dxyData =
           formatDate <$> (TwelveData.datetime <$> reverse (take 180 values))) \/
      (exists eur,
         has_values (twelvedata w "EUR/USD") eur /\
         Dxy.date <$> Dxy.data dxyData =
           formatDate <$>
             (TwelveData.datetime <$> reverse (take (length (Dxy.data dxyData)) eur))))) /\
  (forall geoData s',
     updateGeopoliticalEvents w s = (Return (Some geoData), s') ->
     files s' !! "geopolitical-events.json" = Some (GeoFile geoData) /\
     exists r data articles,
       newsapi w = Resolved r /\ json_body r = Some data /\
       NewsApi.articles data = Some articles /\
       Geo.date <$> Geo.events geoData =
       take 15 ((fun article => split_first "T" (NewsApi.publishedAt article)) <$> articles)).
Proof.
  split; [| split; [| split; [| split]]].
  - intros dateString y m d Hdate Hm Hd Hy.
    destruct (formatDate_shape _ _ _ _ Hdate Hm Hd Hy) as (name & Hname & Hformat & Hshape).
    exists name. split; [done |]. split; [| done].
    by eapply month_three_letters, list_elem_of_lookup_2.
  - intros goldData s' Hrun. split; [by eapply updateGoldPrice_saved |].
    apply updateGoldPrice_inv in Hrun
      as [(r & data & values & Hr & Hj & Hv & ->) | (r & fd & ts & Hr & Hj & Hv & ->)].
    + left. exists r, data, values. do 3 (split; [done |]).
      by rewrite <- !list_fmap_compose.
    + right. exists r, fd, ts. do 3 (split; [done |]).
      by rewrite <- !list_fmap_compose.
  - intros fedData s' Hrun. split; [by eapply updateFedData_saved |].
    apply updateFedData_inv in Hrun
      as (r & dffData & observations & mapped & Hr & Hj & Ho & Hdates & Hdata).
    exists r, dffData, observations, mapped. do 3 (split; [done |]).
    split; [by rewrite Hdates, <- list_fmap_compose | done].
  - intros dxyData s' Hrun. split; [by eapply updateDollarIndex_saved |].
    apply updateDollarIndex_source in Hrun
      as [(r & data & values & Hr & Hj & Hv & ->)
         | (s1 & pairData & s2 & points & Hfetch & Hproxy & Hne & ->)].
    + left. exists r, data, values. do 3 (split; [done |]).
      by rewrite <- !list_fmap_compose.
    + right. rewrite length_reverse. by eapply updateDollarIndex_proxy_dates.
  - intros geoData s' Hrun.
    destruct (updateGeopoliticalEvents_inv _ _ _ Hrun)
      as (r & data & articles & Hkey & Hfetch & Hjson & Hstatus & Harticles & ->).
    rewrite (updateGeopoliticalEvents_success s _ _ _ Hkey Hfetch Hjson Hstatus Harticles)
      in Hrun.
    injection Hrun as <-. cbn [saved files].
    split; [by rewrite lookup_insert_eq |].
    exists r, data, articles. do 3 (split; [done |]).
    cbn [Geo.events]. by rewrite fmap_take, <- list_fmap_compose.
Qed.

(** ** Classification *)

Lemma matches_occurs alternatives text :
  matches alternatives text = true <-> exists k, k ∈ alternatives /\ occurs k text.
Proof.
  unfold matches, occurs. rewrite existsb_exists.
  setoid_rewrite includes_occurs. by setoid_rewrite list_elem_of_In.
Qed.

(** C6.  On a lowercased text: severity is high when one of war, crisis,
    attack, collapse, crash occurs in it, else medium when one of tension,
    concern, risk, warning, threat occurs, else low; impact is positive
    when [gold] and one of rises, rally, surge, gains, higher occurs, else
    negative when [gold] and one of falls, decline, drop, lower occurs,
    else positive for a severity of medium or high and neutral for low.
    The three texts of the specification classify as it says. *)
Theorem C6_event_classification (text : string) :
  let hi := exists k, k ∈ ["war"; "crisis"; "attack"; "collapse"; "crash"] /\ occurs k text in
  let med := exists k, k ∈ ["tension"; "concern"; "risk"; "warning"; "threat"] /\ occurs k text in
  let up := exists k, k ∈ ["rises"; "rally"; "surge"; "gains"; "higher"] /\
                      occurs ("gold " +:+ k) text in
  let down := exists k, k ∈ ["falls"; "decline"; "drop"; "lower"] /\
                        occurs ("gold " +:+ k) text in
  let severity := (classify text).1 in
  let impact := (classify text).2 in
  (hi -> severity = high) /\
  (~ hi -> med -> severity = medium) /\
  (~ hi -> ~ med -> severity = low) /\
  (up -> impact = positive) /\
  (~ up -> down -> impact = negative) /\
  (~ up -> ~ down -> impact = match severity with low => neutral | _ => positive end) /\
  (forall article,
     (Geo.severity (to_event article), Geo.impact (to_event article)) =
     classify (toLowerCase (NewsApi.title article +:+ " " +:+
                            default "null" (NewsApi.description article)))) /\
  classify (toLowerCase "War breaks out, gold rises") = (high, positive) /\
  classify (toLowerCase "Minor tension reported") = (medium, positive) /\
  classify (toLowerCase "Markets calm, gold falls slightly") = (low, negative).
Proof.
  intros hi med up down severity impact.
  assert (matches ["war"; "crisis"; "attack"; "collapse"; "crash"] text = true <-> hi)
    as Hhi by apply matches_occurs.
  assert (matches ["tension"; "concern"; "risk"; "warning"; "threat"] text = true <-> med)
    as Hmed by apply matches_occurs.
  assert (matches ["gold rises"; "gold rally"; "gold surge"; "gold gains"; "gold higher"] text
          = true <-> up) as Hup.
  { rewrite matches_occurs. subst up.
    change ["gold rises"; "gold rally"; "gold surge"; "gold gains"; "gold higher"]
      with (String.append "gold " <$> ["rises"; "rally"; "surge"; "gains"; "higher"]).
    setoid_rewrite list_elem_of_fmap. split.
    - intros (k & (k' & -> & Hk') & Hocc). by eauto.
    - intros (k & Hk & Hocc). by eauto. }
  assert (matches ["gold falls"; "gold decline"; "gold drop"; "gold lower"] text
          = true <-> down) as Hdown.
  { rewrite matches_occurs. subst down.
    change ["gold falls"; "gold decline"; "gold drop"; "gold lower"]
      with (String.append "gold " <$> ["falls"; "decline"; "drop"; "lower"]).
    setoid_rewrite list_elem_of_fmap. split.
    - intros (k & (k' & -> & Hk') & Hocc). by eauto.
    - intros (k & Hk & Hocc). by eauto. }
  subst severity impact. unfold classify, impact_of, severity_of. cbn [fst snd].
  destruct (matches ["war"; "crisis"; "attack"; "collapse"; "crash"] text);
  destruct (matches ["tension"; "concern"; "risk"; "warning"; "threat"] text);
  destruct (matches ["gold rises"; "gold rally"; "gold surge"; "gold gains"; "gold higher"] text);
  destruct (matches ["gold falls"; "gold decline"; "gold drop"; "gold lower"] text);
  repeat split; try done; intros; try done; exfalso; intuition congruence.
Qed.

End Properties.

(** * More of the script *)

Section Effects.
Context `{JsRuntime} (w : World).

Ltac run_task H :=
  unfold try_catch in H; unfold_M;
  repeat (case_match; simplify_eq/=).

(** ** What a task does to the state *)

Lemma fetch_pairs_effect todo pairData (s : State) :
  exists o s' k,
    fetch_pairs w todo pairData s = (o, s') /\
    k <= length todo /\
    requests s' = (requests s ++ ((fun symbol => series_url w symbol "180") <$> take k todo))%list /\
    waited s' = waited s + 1000 * k /\
    files s' = files s /\
    (forall pairData', o = Return pairData' -> k = length todo) /\
    (Forall (fun symbol => exists r b, twelvedata w symbol = Resolved r /\ json_body r = Some b)
            todo ->
     exists pairData', o = Return pairData' /\ k = length todo).
Proof.
  remember 1000 as gap eqn:Hgap.
  revert pairData s. induction todo as [|symbol rest IH]; intros pairData s.
  - exists (Return pairData), s, 0. simpl. rewrite app_nil_r, Nat.mul_0_r, Nat.add_0_r.
    repeat split; by eauto.
  - cbn [fetch_pairs]. rewrite <- Hgap. unfold_M.
    destruct (twelvedata w symbol) as [reason|r] eqn:Hanswer.
    { eexists _, _, 1. split; [done |]. simpl.
      repeat split; try done; try lia.
      intros Hall. apply Forall_cons in Hall as [(r & b & Hr & _) _]. congruence. }
    destruct (json_body r) as [b|] eqn:Hbody; simpl.
    2:{ eexists _, _, 1. split; [done |]. simpl.
        repeat split; try done; try lia.
        intros Hall. apply Forall_cons in Hall as [(r' & b & Hr & Hb) _]. congruence. }
    match goal with |- context [fetch_pairs w rest ?pd ?s1] =>
      destruct (IH pd s1) as (o & s' & k & -> & Hk & Hreq & Hwait & Hfiles & Hret & Hall) end.
    exists o, s', (S k). split; [done |]. simpl in *.
    rewrite Hreq, Hwait, Hfiles, <- (assoc_L (++)). simpl.
    repeat split; try done; try lia.
    + intros pairData' Ho. by rewrite (Hret _ Ho).
    + intros Hall'. apply Forall_cons in Hall' as [_ Hall'].
      destruct (Hall Hall') as (pairData' & -> & ->). by eauto.
Qed.


Lemma updateGoldPrice_effect s r s' :
  updateGoldPrice w s = (Return r, s') ->
  waited s' = waited s /\
  files s' = match r with
             | Some goldData => <["gold-price.json" := GoldFile goldData]> (files s)
             | None => files s
             end /\
  exists urls, requests s' = (requests s ++ urls)%list /\ 1 <= length urls <= 2.
Proof.
  unfold updateGoldPrice, updateGoldPrice_primary, updateGoldPrice_fallback.
  intros Hrun. run_task Hrun.
  all: split; [done |]; split; [done |].
  all: rewrite <- ?(assoc_L (++)); eexists; split; [done |]; simpl; lia.
Qed.

Lemma updateFedData_effect s r s' :
  updateFedData w s = (Return r, s') ->
  waited s <= waited s' <= waited s + 1000 /\
  files s' = match r with
             | Some fedData => <["fed-policy.json" := FedFile fedData]> (files s)
             | None => files s
             end /\
  exists urls, requests s' = (requests s ++ urls)%list /\ 1 <= length urls <= 2.
Proof.
  unfold updateFedData, updateFedData_body. generalize 1000. intros gap.
  generalize (@combinedData H). intros combined.
  intros Hrun. run_task Hrun.
  all: split; [lia |]; split; [done |].
  all: rewrite <- ?(assoc_L (++)); eexists; split; [done |]; simpl; lia.
Qed.

Lemma updateGeopoliticalEvents_effect s r s' :
  updateGeopoliticalEvents w s = (Return r, s') ->
  waited s' = waited s /\
  files s' = match r with
             | Some geoData => <["geopolitical-events.json" := GeoFile geoData]> (files s)
             | None => files s
             end /\
  exists urls, requests s' = (requests s ++ urls)%list /\ length urls <= 1.
Proof.
  unfold updateGeopoliticalEvents, updateGeopoliticalEvents_body.
  intros Hrun. run_task Hrun.
  all: split; [done |]; split; [done |].
  all: first [ exists []; split; [by rewrite app_nil_r | simpl; lia]
             | eexists; split; [done |]; simpl; lia ].
Qed.

Lemma updateDollarIndex_primary_effect s o s1 :
  updateDollarIndex_primary w s = (o, s1) ->
  requests s1 = (requests s ++ [series_url w "DXY" "365"])%list /\
  waited s1 = waited s /\
  match o with
  | Return (Some dxyData) => files s1 = <["dollar-index.json" := DxyFile dxyData]> (files s)
  | Return None | Loops => False
  | Throw _ => files s1 = files s
  end.
Proof.
  unfold updateDollarIndex_primary. intros Hrun. unfold_M.
  repeat (case_match; simplify_eq/=); done.
Qed.

Lemma updateDollarIndex_effect s r s' :
  updateDollarIndex w s = (Return r, s') ->
  waited s <= waited s' <= waited s + 4000 /\
  files s' = match r with
             | Some dxyData => <["dollar-index.json" := DxyFile dxyData]> (files s)
             | None => files s
             end /\
  exists urls, requests s' = (requests s ++ urls)%list /\ 1 <= length urls <= 5.
Proof.
  unfold updateDollarIndex, try_catch.
  destruct (updateDollarIndex_primary w s) as [o s1] eqn:Hprimary.
  apply updateDollarIndex_primary_effect in Hprimary as (Hreq1 & Hwait1 & Hfiles1).
  destruct o as [[dxyData|]|e|]; try done.
  - intros [= <- <-]. split; [lia |]. split; [done |].
    eexists. split; [done |]. simpl. lia.
  - unfold updateDollarIndex_fallback. unfold mbind at 1. unfold M_bind at 1.
    destruct (fetch_pairs_effect pairs ∅ s1)
      as (o & s2 & k & -> & Hk & Hreq2 & Hwait2 & Hfiles2 & _).
    simpl in Hk.
    assert (exists urls, requests s2 = (requests s ++ urls)%list /\ 1 <= length urls <= 5)
      as Hurls.
    { eexists. rewrite Hreq2, Hreq1, <- (assoc_L (++)). split; [done |].
      rewrite length_app, length_fmap, length_take. simpl. lia. }
    assert (waited s <= waited s2 <= waited s + 4000) as Hwait by lia.
    clear Hwait2. revert Hwait. generalize 4000. intros most Hwait.
    intros Hrun. destruct o as [pairData|e'|]; [| | done].
    + unfold_M. repeat (case_match; simplify_eq/=).
      all: split; [done |]; split; [by rewrite ?Hfiles2, ?Hfiles1 | done].
    + injection Hrun as <- <-.
      split; [done |]. split; [by rewrite Hfiles2, Hfiles1 | done].
Qed.

(** X2.  A task changes the files by one write of its own record when it
    succeeds and not at all when it fails: what an earlier run published
    stays as it was. *)
Theorem task_writes_own_record_or_nothing (s : State) :
  (forall r s', updateGoldPrice w s = (Return r, s') ->
     files s' = match r with
                | Some goldData => <["gold-price.json" := GoldFile goldData]> (files s)
                | None => files s
                end) /\
  (forall r s', updateFedData w s = (Return r, s') ->
     files s' = match r with
                | Some fedData => <["fed-policy.json" := FedFile fedData]> (files s)
                | None => files s
                end) /\
  (forall r s', updateDollarIndex w s = (Return r, s') ->
     files s' = match r with
                | Some dxyData => <["dollar-index.json" := DxyFile dxyData]> (files s)
                | None => files s
                end) /\
  (forall r s', updateGeopoliticalEvents w s = (Return r, s') ->
     files s' = match r with
                | Some geoData => <["geopolitical-events.json" := GeoFile geoData]> (files s)
                | None => files s
                end).
Proof.
  split; [| split; [| split]]; intros r s' Hrun.
  - by apply updateGoldPrice_effect in Hrun as (_ & -> & _).
  - by apply updateFedData_effect in Hrun as (_ & -> & _).
  - by apply updateDollarIndex_effect in Hrun as (_ & -> & _).
  - by apply updateGeopoliticalEvents_effect in Hrun as (_ & -> & _).
Qed.

(** X3.  After a run each of the four files holds the record of its task
    if the task succeeded and what it held before if the task failed; no
    other file is touched. *)
Theorem main_publishes_successes_only (s : State) :
  exists results code s',
    main w s = (Return (results, code), s') /\
    files s' !! "gold-price.json" =
      match goldPrice results with
      | Some d => Some (GoldFile d)
      | None => files s !! "gold-price.json"
      end /\
    files s' !! "fed-policy.json" =
      match fedPolicy results with
      | Some d => Some (FedFile d)
      | None => files s !! "fed-policy.json"
      end /\
    files s' !! "dollar-index.json" =
      match dollarIndex results with
      | Some d => Some (DxyFile d)
      | None => files s !! "dollar-index.json"
      end /\
    files s' !! "geopolitical-events.json" =
      match geopolitical results with
      | Some d => Some (GeoFile d)
      | None => files s !! "geopolitical-events.json"
      end /\
    forall filename,
      filename ∉ ["gold-price.json"; "fed-policy.json"; "dollar-index.json";
                  "geopolitical-events.json"] ->
      files s' !! filename = files s !! filename.
Proof.
  destruct (main_run w s) as (gold & fed & dxy & geo & s1 & s2 & s3 & s4 &
                              Hgold & Hfed & Hdxy & Hgeo & Hmain).
  eexists _, _, s4. split; [exact Hmain |]. cbn [goldPrice fedPolicy dollarIndex geopolitical].
  apply updateGoldPrice_effect in Hgold as (_ & Hf1 & _).
  apply updateFedData_effect in Hfed as (_ & Hf2 & _).
  apply updateDollarIndex_effect in Hdxy as (_ & Hf3 & _).
  apply updateGeopoliticalEvents_effect in Hgeo as (_ & Hf4 & _).
  unfold later in *. simpl in *. rewrite Hf4, Hf3, Hf2, Hf1.
  repeat split.
  - destruct geo, dxy, fed, gold;
      repeat (rewrite lookup_insert_ne by done); by rewrite ?lookup_insert_eq.
  - destruct geo, dxy, fed, gold;
      repeat (rewrite lookup_insert_ne by done); by rewrite ?lookup_insert_eq.
  - destruct geo, dxy, fed, gold;
      repeat (rewrite lookup_insert_ne by done); by rewrite ?lookup_insert_eq.
  - destruct geo, dxy, fed, gold;
      repeat (rewrite lookup_insert_ne by done); by rewrite ?lookup_insert_eq.
  - intros filename Hother. rewrite !not_elem_of_cons in Hother.
    destruct Hother as (? & ? & ? & ? & _).
    destruct geo, dxy, fed, gold; by repeat (rewrite lookup_insert_ne by done).
Qed.

(** X4.  A run sends at least 3 and at most 10 requests.  It waits for the
    three pauses of 2000 ms between the tasks and at most for the pause of
    1000 ms between the FRED requests and the four of 1000 ms before the
    pair requests: 6000 ms at least, 11000 ms at most. *)
Theorem main_request_budget (s : State) :
  exists results code s' urls,
    main w s = (Return (results, code), s') /\
    requests s' = (requests s ++ urls)%list /\
    3 <= length urls <= 10 /\
    waited s + 3 * 2000 <= waited s' <= waited s + 3 * 2000 + 1000 + 4 * 1000.
Proof.
  destruct (main_run w s) as (gold & fed & dxy & geo & s1 & s2 & s3 & s4 &
                              Hgold & Hfed & Hdxy & Hgeo & Hmain).
  apply updateGoldPrice_effect in Hgold as (Hw1 & _ & urls1 & Hr1 & Hl1).
  apply updateFedData_effect in Hfed as (Hw2 & _ & urls2 & Hr2 & Hl2).
  apply updateDollarIndex_effect in Hdxy as (Hw3 & _ & urls3 & Hr3 & Hl3).
  apply updateGeopoliticalEvents_effect in Hgeo as (Hw4 & _ & urls4 & Hr4 & Hl4).
  unfold later in *. simpl in *.
  eexists _, _, s4, (urls1 ++ urls2 ++ urls3 ++ urls4)%list. split; [exact Hmain |].
  split; [by rewrite Hr4, Hr3, Hr2, Hr1, <- !(assoc_L (++)) |].
  rewrite !length_app. lia.
Qed.

(** ** What a saved record always satisfies *)









End Effects.

Section Providers.
Context `{JsRuntime} (w : World).

(** ** The providers *)


(** X9.  A successful direct index response, newest point first, is saved
    with the close of its first point, to one decimal, as the current
    value and with the latest 180 points in chronological order as the
    data; the pairs are not asked for. *)
Theorem index_primary_normalised (s : State) r data values newest :
  twelvedata w "DXY" = Resolved r -> ok r = true -> json_body r = Some data ->
  TwelveData.status data <> Some "error" ->
  TwelveData.values data = Some values -> values !! 0%nat = Some newest ->
  exists dxyData s',
    updateDollarIndex w s = (Return (Some dxyData), s') /\
    files s' !! "dollar-index.json" = Some (DxyFile dxyData) /\
    requests s' = (requests s ++ [series_url w "DXY" "365"])%list /\
    waited s' = waited s /\
    Dxy.source dxyData = "Twelve Data API" /\
    Dxy.currentDXY dxyData = toFixed (parseFloat (TwelveData.close newest)) 1 /\
    length (Dxy.data dxyData) = 180 `min` length values /\
    forall i, i < length (Dxy.data dxyData) ->
      exists d, values !! (length (Dxy.data dxyData) - 1 - i) = Some d /\
        Dxy.data dxyData !! i =
        Some {| Dxy.date := formatDate (TwelveData.datetime d);
                Dxy.dxy := toFixed (parseFloat (TwelveData.close d)) 1 |}.
Proof.
  intros Hfetch Hok Hjson Hstatus Hvalues Hnewest.
  eexists _, _. split.
  { apply try_catch_return. unfold updateDollarIndex_primary. unfold_M.
    rewrite Hfetch, Hok. simpl. rewrite Hjson. simpl.
    rewrite bool_decide_eq_false_2 by done. by rewrite Hvalues, Hnewest. }
  cbn [files requests waited Dxy.source Dxy.currentDXY Dxy.data].
  assert (length (dxy_point <$> reverse (take 180 values)) = 180 `min` length values) as Hlen
    by (by rewrite length_fmap, length_reverse, length_take).
  split; [by rewrite lookup_insert_eq |]. do 4 (split; [done |]). split; [done |].
  intros i Hi. rewrite Hlen in *.
  destruct (lookup_lt_is_Some_2 values (180 `min` length values - 1 - i)) as [d Hd]; [lia |].
  exists d. split; [done |].
  rewrite list_lookup_fmap, reverse_lookup by (rewrite length_take; lia).
  rewrite length_take, lookup_take_lt by lia.
  replace (180 `min` length values - S i) with (180 `min` length values - 1 - i) by lia.
  by rewrite Hd.
Qed.

(** X10.  When the direct index request has failed and the four pairs all
    answer with values, an empty values array among them makes the index
    task fail after all four pair requests: nothing is written. *)
Theorem empty_pair_array_fails (s s1 : State) (e : exn) eur jpy gbp cad :
  updateDollarIndex_primary w s = (Throw e, s1) ->
  has_values (twelvedata w "EUR/USD") eur -> has_values (twelvedata w "USD/JPY") jpy ->
  has_values (twelvedata w "GBP/USD") gbp -> has_values (twelvedata w "USD/CAD") cad ->
  eur = [] \/ jpy = [] \/ gbp = [] \/ cad = [] ->
  exists s',
    updateDollarIndex w s = (Return None, s') /\
    files s' = files s /\
    requests s' =
      (requests s1 ++ [series_url w "EUR/USD" "180"; series_url w "USD/JPY" "180";
                       series_url w "GBP/USD" "180"; series_url w "USD/CAD" "180"])%list.
Proof.
  intros Hprimary Heur Hjpy Hgbp Hcad Hempty.
  eexists. split; [| split].
  - unfold updateDollarIndex. rewrite (try_catch_throw _ _ _ _ _ Hprimary).
    unfold try_catch, updateDollarIndex_fallback. unfold mbind at 1. unfold M_bind at 1.
    rewrite (fetch_pairs_all w _ _ _ _ _ Heur Hjpy Hgbp Hcad). unfold_M.
    assert (dxyProxy (all_pairs eur jpy gbp cad) = Return []) as ->; [| done].
    unfold dxyProxy, proxy_fuel. rewrite proxy_length_all.
    assert (((length eur `min` length jpy) `min` length gbp) `min` length cad = 0) as ->
      by (destruct Hempty as [-> | [-> | [-> | ->]]]; simpl; lia).
    done.
  - simpl. by eapply updateDollarIndex_primary_throw.
  - done.
Qed.

(** X11.  An error message in either FRED response makes the policy task
    fail, but only after both requests and the pause between them: the
    first response is not looked at before the second request goes out. *)
Theorem fed_error_after_both_requests (s : State) r1 dffData r2 realYieldData :
  fred w "DFF" = Resolved r1 -> json_body r1 = Some dffData ->
  fred w "DFII10" = Resolved r2 -> json_body r2 = Some realYieldData ->
  truthy (Fred.error_message dffData) = true \/
  truthy (Fred.error_message realYieldData) = true ->
  updateFedData w s =
    (Return None, sent [fred_url w "DFF"; fred_url w "DFII10"] 1000 s).
Proof.
  intros Hf1 Hj1 Hf2 Hj2 Herror.
  unfold updateFedData, try_catch, updateFedData_body, sent. unfold_M.
  rewrite Hf1. simpl. rewrite Hj1. simpl. rewrite Hf2. simpl. rewrite Hj2. simpl.
  rewrite <- (assoc_L (++)). simpl.
  destruct Herror as [-> | ->]; [done |]. by rewrite orb_true_r.
Qed.

End Providers.

Section Normalisation.
Context `{JsRuntime}.

(** ** Normalisation *)

(** X12.  The same closes under the same dates give the same history from
    both price providers, but not the same current price: the fallback
    gives the newest close rounded, the primary gives it as it is. *)
Theorem providers_agree_up_to_rounding (w1 w2 : World) (s : State)
    r1 data values newest r2 fallbackData :
  twelvedata w1 "XAU/USD" = Resolved r1 -> ok r1 = true -> json_body r1 = Some data ->
  TwelveData.status data <> Some "error" ->
  TwelveData.values data = Some values -> values !! 0%nat = Some newest ->
  request_fails (twelvedata w2 "XAU/USD") ->
  alphavantage w2 = Resolved r2 -> json_body r2 = Some fallbackData ->
  truthy (AlphaVantage.Error_Message fallbackData) = false ->
  AlphaVantage.time_series fallbackData =
    Some ((fun d => (TwelveData.datetime d, {| AlphaVantage.close := TwelveData.close d |}))
            <$> values) ->
  exists g1 s1 g2 s2,
    updateGoldPrice w1 s = (Return (Some g1), s1) /\
    updateGoldPrice w2 s = (Return (Some g2), s2) /\
    Gold.history g2 = Gold.history g1 /\
    Gold.currentPrice g1 = parseFloat (TwelveData.close newest) /\
    Gold.currentPrice g2 = Math_round (parseFloat (TwelveData.close newest)).
Proof.
  intros Hfetch Hok Hjson Hstatus Hvalues Hnewest Hfails Hfetch2 Hjson2 Herror Hseries.
  destruct (updateGoldPrice_primary_failure w2 s Hfails) as [e He].
  destruct values as [|d values]; [done |]. injection Hnewest as ->.
  destruct (updateGoldPrice_fallback_success w2 (sent [gold_url w2] 0 s) _ _ _
              Hfetch2 Hjson2 Herror Hseries) as (entry & Hentry & _ & Hrun2); [done |].
  injection Hentry as <-.
  eexists _, _, _, _. split; [| split].
  - apply try_catch_return.
    by eapply (updateGoldPrice_primary_success w1 s _ _ _ _ Hfetch Hok Hjson Hstatus Hvalues).
  - unfold updateGoldPrice. rewrite (try_catch_throw _ _ _ _ _ He).
    apply try_catch_return, Hrun2.
  - cbn [Gold.history Gold.currentPrice]. split; [| done].
    by rewrite <- fmap_take, <- fmap_reverse, <- list_fmap_compose.
Qed.

(** X13.  What the pairing computes for the observation at index [j] of the
    chronological rate series: its partner is the real yield at index [j]
    of the chronological series when [j] is even and at index [j] of the
    series as FRED gave it, newest first, when [j] is odd; the pair is
    kept exactly when the rate is not ['.'] and the partner exists and is
    not ['.'], a rate or yield of zero included. *)
Theorem pairing_alternates_with_index dffData realYieldData rates yields j obs :
  (forall x, Number_toString x <> "") ->
  Fred.observations dffData = Some rates ->
  Fred.observations realYieldData = Some yields ->
  reverse rates !! j = Some obs ->
  let partner := (if Nat.even j then reverse yields else yields) !! j in
  exists mapped p,
    combinedData dffData realYieldData = Return (List.filter complete mapped) /\
    length mapped = length rates /\
    mapped !! j = Some p /\
    FedPolicy.date p = formatDate (Fred.date obs) /\
    FedPolicy.fedRate p = rate_text (Fred.value obs) /\
    FedPolicy.realYield p = (o ← partner; rate_text (Fred.value o)) /\
    (complete p = true <->
     Fred.value obs <> "." /\ exists o, partner = Some o /\ Fred.value o <> ".").
Proof.
  intros Htext Hrates Hyields Hobs partner.
  assert (forall x f, f <> 0 -> toFixed x f <> "") as Hfixed.
  { intros x f Hf. unfold toFixed. destruct x as [q| |[]]; [| done | done | done].
    destruct (Qle_bool (10 ^ 21) (Qabs q)).
    - specialize (Htext (Num (Qabs q))).
      destruct (Number_toString (Num (Qabs q))); [done |]. by destruct (Qle_bool 0 q).
    - destruct (Nat.eqb_spec f 0) as [-> | _]; [done |].
      match goal with |- context [String.substring 0 ?n ?m] =>
        destruct (String.substring 0 n m) end; by destruct (Qle_bool 0 q). }
  assert (forall v, truthy (rate_text v) = true <-> v <> ".") as Htruthy.
  { intros v. unfold rate_text. destruct (String.eqb_spec v ".") as [-> | Hv]; [done |].
    simpl. specialize (Hfixed (parseFloat v) 2).
    destruct (String.eqb_spec (toFixed (parseFloat v) 2) ""); [by destruct Hfixed | done]. }
  destruct (combine_from_lookup (reverse rates) 0 yields j obs Hobs)
    as (mapped & Hrun & Hlen & Hj).
  eexists mapped, _. split; [| split; [| split; [exact Hj |]]].
  { unfold combinedData. rewrite Hrates, Hyields. simpl. by rewrite Hrun. }
  { by rewrite Hlen, length_reverse. }
  do 3 (split; [done |]). cbn [Nat.add] in *. fold partner.
  unfold complete. cbn [FedPolicy.fedRate FedPolicy.realYield].
  rewrite andb_true_iff, Htruthy.
  destruct partner as [o|]; simpl.
  - rewrite Htruthy. split; [intros [? ?]; by eauto | intros [? (o' & [= <-] & ?)]; done].
  - split; [by intros [_ ?] | intros [_ (o' & [=] & _)]].
Qed.

(** X14.  Dates and closes that do not parse do not make the price task
    fail: the point is saved with the date text of an invalid date and
    with NaN as its price. *)
Theorem unparseable_fields_are_saved (w : World) (s : State) r data values newest :
  twelvedata w "XAU/USD" = Resolved r -> ok r = true -> json_body r = Some data ->
  TwelveData.status data <> Some "error" ->
  TwelveData.values data = Some values -> values !! 0%nat = Some newest ->
  exists goldData s',
    updateGoldPrice w s = (Return (Some goldData), s') /\
    files s' !! "gold-price.json" = Some (GoldFile goldData) /\
    (parseFloat (TwelveData.close newest) = NaN -> Gold.currentPrice goldData = NaN) /\
    forall i d,
      reverse (take 180 values) !! i = Some d ->
      exists p,
        Gold.history goldData !! i = Some p /\
        (new_Date (TwelveData.datetime d) = None -> Gold.date p = "undefined NaN, NaN") /\
        (parseFloat (TwelveData.close d) = NaN -> Gold.price p = NaN).
Proof.
  intros Hfetch Hok Hjson Hstatus Hvalues Hnewest.
  eexists _, _. split.
  { apply try_catch_return. by eapply updateGoldPrice_primary_success. }
  cbn [saved files Gold.history Gold.currentPrice].
  split; [by rewrite lookup_insert_eq |]. split; [done |].
  intros i d Hd. exists (gold_point d). rewrite list_lookup_fmap, Hd.
  split; [done |]. unfold gold_point, formatDate. cbn [Gold.date Gold.price].
  split; by intros ->.
Qed.

End Normalisation.

(** ** Events *)

Lemma substring0_split n s : exists rest, s = substring0 n s +:+ rest.
Proof.
  revert s. induction n as [|n IH]; intros s; [by exists s |].
  destruct s as [|c s]; [by exists "" |].
  destruct (IH s) as [rest Hrest]. exists rest.
  change (String c s = String c (substring0 n s +:+ rest)). by f_equal.
Qed.

Lemma substring0_length n s : String.length (substring0 n s) = n `min` String.length s.
Proof.
  revert s. induction n as [|n IH]; intros s; [done |].
  destruct s as [|c s]; [done |]. simpl. by rewrite IH.
Qed.

Lemma substring0_short n s : String.length s <= n -> substring0 n s = s.
Proof.
  revert s. induction n as [|n IH]; intros s Hs.
  - destruct s; [done | simpl in Hs; lia].
  - destruct s as [|c s]; [done |]. simpl in *. rewrite IH; [done | lia].
Qed.

Lemma split_first_split sep s :
  exists rest, s = split_first sep s +:+ rest /\
               (rest = "" \/ exists rest', rest = String sep rest').
Proof.
  induction s as [|c s (rest & Hrest & Hsep)]; [exists ""; by auto |].
  simpl. destruct (Ascii.eqb_spec c sep) as [-> | Hne].
  - exists (String sep s). by eauto.
  - exists rest. split; [| done].
    change (String c s = String c (split_first sep s +:+ rest)). by f_equal.
Qed.

Lemma append_cons c s t : String c s +:+ t = String c (s +:+ t).
Proof. done. Qed.

Lemma split_first_free sep s : ~ occurs (String sep "") (split_first sep s).
Proof.
  induction s as [|c s IH]; intros (a & b & Hab).
  - by destruct a.
  - simpl in Hab. destruct (Ascii.eqb_spec c sep) as [-> | Hne].
    + by destruct a.
    + destruct a as [|c' a]; rewrite ?append_cons in Hab.
      * injection Hab as Hc _. congruence.
      * injection Hab as _ Hab. apply IH. by exists a, b.
Qed.

(** X15.  The headline of an event whose title is ASCII text is the title cut
    after 120 characters, the whole title when it is not longer. *)
Theorem event_headline_bounded (article : NewsApi.article) :
  ascii_only (NewsApi.title article) = true ->
  let e := to_event article in
  String.length (Geo.event e) = 120 `min` String.length (NewsApi.title article) /\
  String.length (Geo.event e) <= 120 /\
  (exists rest, NewsApi.title article = Geo.event e +:+ rest) /\
  (String.length (NewsApi.title article) <= 120 -> Geo.event e = NewsApi.title article).
Proof.
  intros _. cbn [to_event Geo.event].
  pose proof (substring0_length 120 (NewsApi.title article)) as Hlen.
  split; [done |]. split; [lia |].
  split; [apply substring0_split | apply substring0_short].
Qed.

(** X16.  The date of an event is the text of [publishedAt] before its first
    [T], all of it when it has none, and holds no [T]; the link is kept as
    it is. *)
Theorem event_date_before_T (article : NewsApi.article) :
  let e := to_event article in
  (exists rest, NewsApi.publishedAt article = Geo.date e +:+ rest /\
                (rest = "" \/ exists rest', rest = "T" +:+ rest')) /\
  ~ occurs "T" (Geo.date e) /\
  (~ occurs "T" (NewsApi.publishedAt article) -> Geo.date e = NewsApi.publishedAt article) /\
  Geo.url e = NewsApi.url article.
Proof.
  cbn [to_event Geo.date Geo.url].
  split; [apply split_first_split |]. split; [apply split_first_free |].
  split; [| done]. intros Hfree.
  destruct (split_first_split "T" (NewsApi.publishedAt article))
    as (rest & Hsplit & [-> | (rest' & ->)]).
  - rewrite Hsplit at 2. clear. induction (split_first _ _) as [|c t IH]; [done |].
    rewrite append_cons. by f_equal.
  - destruct Hfree. by exists (split_first "T" (NewsApi.publishedAt article)), rest'.
Qed.

(** X17.  A text in which [warning] occurs is of high severity, never of
    medium: [war] occurs in it and is looked for first. *)
Theorem warning_is_high (text : string) :
  occurs "warning" text -> (classify text).1 = high.
Proof.
  intros (a & b & ->). unfold classify, severity_of. cbn [fst].
  assert (matches ["war"; "crisis"; "attack"; "collapse"; "crash"]
            (a +:+ "warning" +:+ b) = true) as ->; [| done].
  apply matches_occurs. exists "war". split; [by left |].
  exists a, ("ning" +:+ b). done.
Qed.

(** * The script on concrete answers *)

(** C1.  The script does not pair as C1 says.  FRED gives two days,
    newest first, with the real yield of January 2 missing.  Paired in
    chronological order, January 1 is complete and January 2 is not, so
    one pair stays.  The callback of the script reverses the real-yield
    array in place on each call: the call for index 1 finds it newest-first
    again and pairs January 2 with the real yield of January 1.  Both
    pairs stay, and the current snapshot is taken from the wrong one. *)
Theorem C1_pairing_reverses_in_place :
  (updateFedData (H := decimal_runtime) world_missing_yield start).1 =
  Return (Some
    {| FedPolicy.lastUpdated := "2024-01-16T06:00:00.000Z";
       FedPolicy.source := "Federal Reserve Economic Data (FRED)";
       FedPolicy.currentFedRate := Some "5.33";
       FedPolicy.currentRealYield := Some "1.75";
       FedPolicy.data :=
         [{| FedPolicy.date := "Jan 1, 2024";
             FedPolicy.fedRate := Some "5.33"; FedPolicy.realYield := Some "1.75" |};
          {| FedPolicy.date := "Jan 2, 2024";
             FedPolicy.fedRate := Some "5.33"; FedPolicy.realYield := Some "1.75" |}] |}) /\
  paired_chronologically (H := decimal_runtime)
    (observation <$> dff_two_days) (observation <$> yield_two_days) =
  [{| FedPolicy.date := "Jan 1, 2024";
      FedPolicy.fedRate := Some "5.33"; FedPolicy.realYield := Some "1.75" |}].
Proof. split; vm_compute; reflexivity. Qed.

Example exit_code_offline : exit_code (H := decimal_runtime) offline start = Some 1.
Proof. vm_compute. reflexivity. Qed.

Example exit_code_news_only : exit_code (H := decimal_runtime) world_news start = Some 0.
Proof. vm_compute. reflexivity. Qed.

Example toFixed_examples :
  toFixed (H := decimal_runtime) (Num 5.33) 2 = "5.33" /\
  toFixed (H := decimal_runtime) (Num (-0.04)) 1 = "-0.0" /\
  toFixed (H := decimal_runtime) (Num 119.26788) 1 = "119.3" /\
  toFixed (H := decimal_runtime) (Num 7) 2 = "7.00".
Proof. vm_compute. done. Qed.

Lemma C2_witness :
  (exists dxyData s',
     updateDollarIndex (H := decimal_runtime) world_pairs start = (Return (Some dxyData), s') /\
     length (Dxy.data dxyData) = 2) /\
  (exists s',
     updateDollarIndex (H := decimal_runtime) world_pair_missing start = (Return None, s')).
Proof.
  split.
  - destruct (C2_index_proxy (H := decimal_runtime) world_pairs start _ _ eq_refl)
      as [Hall _].
    destruct (Hall _ _ _ _
                (ex_intro _ _ (ex_intro _ _ (conj eq_refl (conj eq_refl eq_refl))))
                (ex_intro _ _ (ex_intro _ _ (conj eq_refl (conj eq_refl eq_refl))))
                (ex_intro _ _ (ex_intro _ _ (conj eq_refl (conj eq_refl eq_refl))))
                (ex_intro _ _ (ex_intro _ _ (conj eq_refl (conj eq_refl eq_refl)))))
      as (dxyData & s' & Hrun & _ & _ & Hlen & _); [done | done | done | done |].
    exists dxyData, s'. split; [exact Hrun | exact Hlen].
  - destruct (C2_index_proxy (H := decimal_runtime) world_pair_missing start _ _ eq_refl)
      as [_ Hmissing].
    destruct (Hmissing "USD/JPY") as (s' & Hrun & _); [repeat constructor | reflexivity |].
    by exists s'.
Defined.

Lemma C4_witness :
  exists goldData s',
    updateGoldPrice (H := decimal_runtime) world_primary start = (Return (Some goldData), s') /\
    Gold.currentPrice goldData = Num (50864 # 25) /\
    length (Gold.history goldData) = 2.
Proof.
  destruct (C4_primary_price_normalised (H := decimal_runtime) world_primary start
              _ _ _ _ eq_refl eq_refl eq_refl ltac:(done) eq_refl eq_refl)
    as (goldData & s' & Hrun & _ & _ & Hcurrent & _ & Hlen & _).
  exists goldData, s'. split; [exact Hrun |]. split; [exact Hcurrent | exact Hlen].
Defined.

Lemma C5_witness :
  exists goldData s',
    updateGoldPrice (H := decimal_runtime) world_fallback start = (Return (Some goldData), s') /\
    Gold.source goldData = "Alpha Vantage API (fallback)".
Proof.
  destruct (C5_fallback_source_label (H := decimal_runtime) world_fallback start
              _ _ _ I eq_refl eq_refl eq_refl eq_refl ltac:(done))
    as (goldData & s' & Hrun & _ & Hsource & _).
  by exists goldData, s'.
Defined.

Lemma C7_witness :
  month_day_year (formatDate (H := decimal_runtime) "2024-01-15") /\
  formatDate (H := decimal_runtime) "2024-01-15" = "Jan 15, 2024" /\
  files (updateGoldPrice (H := decimal_runtime) world_primary start).2 !! "gold-price.json" =
    Some (GoldFile
      {| Gold.lastUpdated := "2024-01-16T06:00:00.000Z";
         Gold.currentPrice := Num (50864 # 25);
         Gold.source := "Twelve Data API";
         Gold.history :=
           [{| Gold.date := "Jan 15, 2024"; Gold.price := Num 2029 |};
            {| Gold.date := "Jan 16, 2024"; Gold.price := Num 2035 |}] |}) /\
  files (updateDollarIndex (H := decimal_runtime) world_pairs start).2 !! "dollar-index.json" =
    Some (DxyFile
      {| Dxy.lastUpdated := "2024-01-16T06:00:00.000Z";
         Dxy.source := "Calculated DXY Proxy";
         Dxy.currentDXY := "119.3";
         Dxy.data :=
           [{| Dxy.date := "Jan 15, 2024"; Dxy.dxy := "119.1" |};
            {| Dxy.date := "Jan 16, 2024"; Dxy.dxy := "119.3" |}] |}).
Proof.
  destruct (C7_dates_formatted_except_events (H := decimal_runtime) world_primary start)
    as (Hformat & Hgold & _).
  destruct (C7_dates_formatted_except_events (H := decimal_runtime) world_pairs start)
    as (_ & _ & _ & Hdxy & _).
  destruct (Hformat "2024-01-15" 2024%Z 0 15 eq_refl) as (name & Hname & _ & Hdate & Hshape);
    [lia | lia | lia |].
  split; [exact Hshape |]. split; [injection Hname as <-; exact Hdate |]. split.
  - destruct (updateGoldPrice (H := decimal_runtime) world_primary start) as [o s'] eqn:Hrun.
    pose proof (f_equal fst Hrun) as Hresult. vm_compute in Hresult. subst o.
    exact (proj1 (Hgold _ _ eq_refl)).
  - destruct (updateDollarIndex (H := decimal_runtime) world_pairs start) as [o s'] eqn:Hrun.
    pose proof (f_equal fst Hrun) as Hresult. vm_compute in Hresult. subst o.
    exact (proj1 (Hdxy _ _ eq_refl)).
Defined.

Lemma C8_witness :
  updateGeopoliticalEvents world_primary start = (Return None, start).
Proof.
  exact (proj1 (C8_news_key_absent (H := decimal_runtime) world_primary start eq_refl)).
Defined.

Lemma C9_witness :
  exists geoData s',
    updateGeopoliticalEvents world_twenty start = (Return (Some geoData), s') /\
    length (Geo.events geoData) = 15.
Proof.
  destruct (C9_events_capped_at_15 world_twenty start _ _ _
              eq_refl eq_refl eq_refl ltac:(done) eq_refl)
    as (geoData & s' & Hrun & _ & _ & Hlen & _).
  by exists geoData, s'.
Defined.

Lemma C10_witness :
  (exists s',
     updateGoldPrice (H := decimal_runtime) world_empty_series start = (Return None, s') /\
     files s' = files start) /\
  (exists s',
     updateFedData (H := decimal_runtime) world_no_pair start = (Return None, s') /\
     files s' = files start).
Proof.
  split.
  - destruct (C10_degenerate_payloads_caught (H := decimal_runtime) world_empty_series start)
      as [Hgold _].
    exact (Hgold _ _ _ _ eq_refl eq_refl eq_refl eq_refl).
  - destruct (C10_degenerate_payloads_caught (H := decimal_runtime) world_no_pair start)
      as (_ & Hfed & _).
    exact (Hfed _ _ _ _ eq_refl eq_refl eq_refl eq_refl eq_refl eq_refl eq_refl).
Defined.

(** C7 does not hold of the events: the date saved for an article published
    at [2024-01-15T10:30:00Z] is [2024-01-15], which is not of the form
    ["<3-letter month> <day>, <4-digit year>"], while [formatDate] of the
    same text is [Jan 15, 2024]. *)
Lemma C7_event_date_counterexample :
  files (updateGeopoliticalEvents world_news start).2 !! "geopolitical-events.json" =
  Some (GeoFile
    {| Geo.lastUpdated := "2024-01-16T06:00:00.000Z";
       Geo.source := "NewsAPI";
       Geo.events :=
         [{| Geo.date := "2024-01-15";
             Geo.event := "War breaks out, gold rises";
             Geo.severity := high;
             Geo.impact := positive;
             Geo.url := "https://example.org/a" |}] |}) /\
  ~ month_day_year "2024-01-15" /\
  formatDate (H := decimal_runtime) "2024-01-15T10:30:00Z" = "Jan 15, 2024".
Proof.
  split; [vm_compute; reflexivity |]. split; [| vm_compute; reflexivity].
  intros (m & d & y & Hm & _ & _ & Heq). unfold months in Hm.
  repeat (apply elem_of_cons in Hm as [-> | Hm]; [discriminate Heq |]).
  by apply elem_of_nil in Hm.
Qed.

(** ** More of the script on concrete answers *)

(** * More of the script on concrete answers *)

Lemma pretty_N_go_nonempty x s : s <> "" -> pretty_N_go x s <> "".
Proof.
  revert s. induction (N.lt_wf_0 x) as [x _ IH]; intros s Hs.
  destruct (decide (x = 0%N)) as [-> | Hx]; [by rewrite pretty_N_go_0 |].
  rewrite pretty_N_go_step by lia. apply IH; [apply N.div_lt; lia | done].
Qed.

Lemma pretty_Z_nonempty (z : Z) : pretty z <> "".
Proof.
  destruct z as [|p|p]; [done | |].
  - unfold pretty, pretty_Z, pretty, pretty_positive, pretty, pretty_N.
    destruct (decide (N.pos p = 0%N)); [done |].
    rewrite pretty_N_go_step by lia. by apply pretty_N_go_nonempty.
  - done.
Qed.

Lemma decimal_runtime_toString x : Number_toString (JsRuntime := decimal_runtime) x <> "".
Proof. destruct x; [apply pretty_Z_nonempty | done | done]. Qed.





Lemma index_primary_normalised_witness :
  exists dxyData s',
    updateDollarIndex (H := decimal_runtime) world_index start = (Return (Some dxyData), s') /\
    Dxy.currentDXY dxyData = "103.4" /\ length (Dxy.data dxyData) = 2.
Proof.
  destruct (index_primary_normalised (H := decimal_runtime) world_index start
              _ _ _ _ eq_refl eq_refl eq_refl ltac:(done) eq_refl eq_refl)
    as (dxyData & s' & Hrun & _ & _ & _ & _ & Hcurrent & Hlen & _).
  exists dxyData, s'. split; [exact Hrun |]. split; [exact Hcurrent | exact Hlen].
Defined.

Lemma empty_pair_array_fails_witness :
  exists s',
    updateDollarIndex (H := decimal_runtime) world_pair_empty start = (Return None, s') /\
    files s' = files start.
Proof.
  edestruct (empty_pair_array_fails (H := decimal_runtime) world_pair_empty start)
    as (s' & Hrun & Hfiles & _).
  - vm_compute. reflexivity.
  - eexists _, _. split; [reflexivity |]. split; reflexivity.
  - eexists _, _. split; [reflexivity |]. split; reflexivity.
  - eexists _, _. split; [reflexivity |]. split; reflexivity.
  - eexists _, _. split; [reflexivity |]. split; reflexivity.
  - right. left. reflexivity.
  - exists s'. split; [exact Hrun | exact Hfiles].
Defined.

Lemma fed_error_after_both_requests_witness :
  updateFedData (H := decimal_runtime) world_fed_error start =
  (Return None,
   sent [fred_url world_fed_error "DFF"; fred_url world_fed_error "DFII10"] 1000 start).
Proof.
  exact (fed_error_after_both_requests (H := decimal_runtime) world_fed_error start
           _ _ _ _ eq_refl eq_refl eq_refl eq_refl (or_introl eq_refl)).
Defined.

Lemma providers_agree_up_to_rounding_witness :
  exists g1 s1 g2 s2,
    updateGoldPrice (H := decimal_runtime) world_primary start = (Return (Some g1), s1) /\
    updateGoldPrice (H := decimal_runtime) world_fallback start = (Return (Some g2), s2) /\
    Gold.history g2 = Gold.history g1 /\
    Gold.currentPrice g1 = Num (50864 # 25) /\ Gold.currentPrice g2 = Num 2035.
Proof.
  edestruct (providers_agree_up_to_rounding (H := decimal_runtime) world_primary world_fallback
               start)
    as (g1 & s1 & g2 & s2 & Hrun1 & Hrun2 & Hhistory & Hcurrent1 & Hcurrent2).
  - reflexivity.
  - reflexivity.
  - reflexivity.
  - done.
  - reflexivity.
  - reflexivity.
  - exact I.
  - reflexivity.
  - reflexivity.
  - reflexivity.
  - reflexivity.
  - exists g1, s1, g2, s2. do 3 (split; [assumption |]).
    split; [exact Hcurrent1 | exact Hcurrent2].
Defined.

Lemma pairing_alternates_with_index_witness :
  exists mapped p,
    combinedData (H := decimal_runtime)
      {| Fred.error_message := None; Fred.observations := Some (observation <$> dff_two_days) |}
      {| Fred.error_message := None; Fred.observations := Some (observation <$> yield_two_days) |}
    = Return (List.filter complete mapped) /\
    mapped !! 1 = Some p /\
    FedPolicy.date p = "Jan 2, 2024" /\ FedPolicy.realYield p = Some "1.75".
Proof.
  edestruct (pairing_alternates_with_index (H := decimal_runtime)
               {| Fred.error_message := None;
                  Fred.observations := Some (observation <$> dff_two_days) |}
               {| Fred.error_message := None;
                  Fred.observations := Some (observation <$> yield_two_days) |}
               (observation <$> dff_two_days) (observation <$> yield_two_days) 1)
    as (mapped & p & Hrun & _ & Hp & Hdate & _ & Hyield & _).
  - exact decimal_runtime_toString.
  - reflexivity.
  - reflexivity.
  - reflexivity.
  - exists mapped, p. split; [exact Hrun |]. split; [exact Hp |].
    split; [exact Hdate | exact Hyield].
Defined.

Lemma unparseable_fields_are_saved_witness :
  exists goldData s',
    updateGoldPrice (H := decimal_runtime) world_garbage start = (Return (Some goldData), s') /\
    Gold.currentPrice goldData = NaN /\
    exists p, Gold.history goldData !! 0 = Some p /\
              Gold.date p = "undefined NaN, NaN" /\ Gold.price p = NaN.
Proof.
  edestruct (unparseable_fields_are_saved (H := decimal_runtime) world_garbage start)
    as (goldData & s' & Hrun & _ & Hcurrent & Hpoints).
  - reflexivity.
  - reflexivity.
  - reflexivity.
  - done.
  - reflexivity.
  - reflexivity.
  - exists goldData, s'. split; [exact Hrun |]. split; [exact (Hcurrent eq_refl) |].
    destruct (Hpoints 0 _ eq_refl) as (p & Hp & Hdate & Hprice).
    exists p. split; [exact Hp |]. split; [exact (Hdate eq_refl) | exact (Hprice eq_refl)].
Defined.

Lemma warning_is_high_witness :
  (classify "storm warning issued").1 = high.
Proof.
  apply warning_is_high. exists "storm ", " issued". reflexivity.
Defined.

Lemma event_headline_bounded_witness :
  Geo.event (to_event breaking_news) = "War breaks out, gold rises".
Proof.
  destruct (event_headline_bounded breaking_news eq_refl) as (_ & _ & _ & Hshort).
  apply Hshort. vm_compute. lia.
Defined.
